(** * KismetCaptureRtladsb: the Mode S / ADS-B decoding core

    A shallow embedding of the decoding functions of
    [capture_sdr_rtladsb/KismetCaptureRtladsb/__init__.py] (checksum, field
    extractors, dispatcher and the line ingestion loop of [__rtl_thread]),
    with the properties the design document states about them.

    Conventions of the embedding:
    - a Python [bytearray] is a [list byte]; reading an element gives the
      integer [byte_val b] in [0, 256);
    - Python integers are [Z]; [&], [|], [^], [<<], [>>] are [Z.land],
      [Z.lor], [Z.lxor], [Z.shiftl], [Z.shiftr];
    - a Python exception is the [Raise] case of the result type [res];
      subscripts follow Python (negative indices count from the end,
      anything else out of range raises [IndexError]);
    - Python floats and the [math] functions are modelled by exact real
      numbers ([R], [sqrt], [atan], [PI]);
    - a [dict] with string keys is a [gmap string value]. *)

From Stdlib Require Import ZArith List String Ascii Lia Reals Lra.
From Stdlib.Strings Require Byte.
From stdpp Require Import gmap strings list.

Local Open Scope Z_scope.

(** ** Exceptions and results *)

Inductive exn : Type :=
| IndexError
| ValueError
| UnicodeDecodeError
| RuntimeError (msg : string).

Inductive res (A : Type) : Type :=
| Ok (a : A)
| Raise (e : exn).
Arguments Ok {A} a.
Arguments Raise {A} e.

#[global] Instance res_ret : MRet res := fun _ a => Ok a.
#[global] Instance res_bind : MBind res := fun _ _ f m =>
  match m with
  | Ok a => f a
  | Raise e => Raise e
  end.
#[global] Instance res_fmap : FMap res := fun _ _ f m =>
  match m with
  | Ok a => Ok (f a)
  | Raise e => Raise e
  end.

(** ** Bytes and subscripts *)

Abbreviation byte := Byte.byte.

Definition byte_val (b : byte) : Z := Z.of_N (Byte.to_N b).

(** [l[i]] for a Python sequence. *)
Definition getitem {A : Type} (l : list A) (i : Z) : res A :=
  let k := if i <? 0 then i + Z.of_nat (length l) else i in
  if k <? 0 then Raise IndexError
  else match l !! Z.to_nat k with
       | Some x => Ok x
       | None => Raise IndexError
       end.

(** [data[i]] for a bytearray: the element as an integer. *)
Definition data_at (data : list byte) (i : Z) : res Z :=
  byte_val <$> getitem data i.

(** [for j in range(start, start + n): s = body(j, s)], stopping at the
    first exception. *)
Fixpoint for_range {St : Type} (body : Z -> St -> res St) (start : Z)
    (n : nat) (s : St) : res St :=
  match n with
  | O => Ok s
  | S n' => s' ← body start s; for_range body (start + 1) n' s'
  end.

(** ** Checksum *)

Definition modes_checksum_table : list Z :=
  [ 0x3935ea; 0x1c9af5; 0xf1b77e; 0x78dbbf; 0xc397db; 0x9e31e9;
    0xb0e2f0; 0x587178; 0x2c38bc; 0x161c5e; 0x0b0e2f; 0xfa7d13;
    0x82c48d; 0xbe9842; 0x5f4c21; 0xd05c14; 0x682e0a; 0x341705;
    0xe5f186; 0x72f8c3; 0xc68665; 0x9cb936; 0x4e5c9b; 0xd8d449;
    0x939020; 0x49c810; 0x24e408; 0x127204; 0x093902; 0x049c81;
    0xfdb444; 0x7eda22; 0x3f6d11; 0xe04c8c; 0x702646; 0x381323;
    0xe3f395; 0x8e03ce; 0x4701e7; 0xdc7af7; 0x91c77f; 0xb719bb;
    0xa476d9; 0xadc168; 0x56e0b4; 0x2b705a; 0x15b82d; 0xf52612;
    0x7a9309; 0xc2b380; 0x6159c0; 0x30ace0; 0x185670; 0x0c2b38;
    0x06159c; 0x030ace; 0x018567; 0xff38b7; 0x80665f; 0xbfc92b;
    0xa01e91; 0xaff54c; 0x57faa6; 0x2bfd53; 0xea04ad; 0x8af852;
    0x457c29; 0xdd4410; 0x6ea208; 0x375104; 0x1ba882; 0x0dd441;
    0xf91024; 0x7c8812; 0x3e4409; 0xe0d800; 0x706c00; 0x383600;
    0x1c1b00; 0x0e0d80; 0x0706c0; 0x038360; 0x01c1b0; 0x00e0d8;
    0x00706c; 0x003836; 0x001c1b; 0xfff409; 0x000000; 0x000000;
    0x000000; 0x000000; 0x000000; 0x000000; 0x000000; 0x000000;
    0x000000; 0x000000; 0x000000; 0x000000; 0x000000; 0x000000;
    0x000000; 0x000000; 0x000000; 0x000000; 0x000000; 0x000000;
    0x000000; 0x000000; 0x000000; 0x000000 ].

(** The subscripts [adsb_crc] evaluates, in order: [data[i]] and
    [modes_checksum_table[i]]. *)
Inductive access : Type :=
| ReadData (i : Z)
| ReadTable (i : Z).

(** One iteration of the loop of [adsb_crc]; the state is the accumulator
    [crc] and the log of subscripts evaluated so far. *)
Definition adsb_crc_body (data : list byte) (offset : Z) (j : Z)
    (s : Z * list access) : res (Z * list access) :=
  let '(crc, log) := s in
  let byte := Z.quot j 8 in
  let bit := j mod 8 in
  let bitmask := Z.shiftl 1 (7 - bit) in
  d ← data_at data byte;
  if Z.land d bitmask =? 0 then Ok (crc, log ++ [ReadData byte])
  else
    t ← getitem modes_checksum_table (j + offset);
    Ok (Z.lxor crc t, log ++ [ReadData byte; ReadTable (j + offset)]).

(** [adsb_crc] with the log of its subscripts. *)
Definition adsb_crc_run (data : list byte) (bits : Z) : res (Z * list access) :=
  let crc := 0 in
  let offset := if negb (bits =? 112) then 112 - 56 else 0 in
  '(crc, log) ← for_range (adsb_crc_body data offset) 0 (Z.to_nat bits) (crc, []);
  Ok (Z.land crc 0x00FFFFFF, log).

Definition adsb_crc (data : list byte) (bits : Z) : res Z :=
  fst <$> adsb_crc_run data bits.

Definition adsb_len_by_type (type : Z) : Z :=
  if (type =? 16) || (type =? 17) || (type =? 19) || (type =? 20) || (type =? 21)
  then 112 else 56.

Definition adsb_msg_get_crc (data : list byte) (bits : Z) : res Z :=
  a ← data_at data (Z.quot bits 8 - 3);
  let crc := Z.shiftl a 16 in
  b ← data_at data (Z.quot bits 8 - 2);
  let crc := Z.lor crc (Z.shiftl b 8) in
  c ← data_at data (Z.quot bits 8 - 1);
  let crc := Z.lor crc c in
  Ok crc.

Definition adsb_msg_get_type (data : list byte) : res Z :=
  d ← data_at data 0; Ok (Z.shiftr d 3).

(** ** Field extractors *)

(** [data[1:4]]: a slice never raises. *)
Definition adsb_msg_get_icao (data : list byte) : list byte :=
  take 3 (drop 1 data).

Definition adsb_msg_get_fs (data : list byte) : res Z :=
  d ← data_at data 0; Ok (Z.land d 7).

Definition adsb_msg_get_me_subme (data : list byte) : res (Z * Z) :=
  d ← data_at data 4; Ok (Z.shiftr d 3, Z.land d 7).

Definition adsb_msg_get_ac13_altitude (data : list byte) : res Z :=
  d3 ← data_at data 3;
  let m_bit := Z.land d3 (Z.shiftl 1 6) in
  let q_bit := Z.land d3 (Z.shiftl 1 4) in
  if m_bit =? 0 then
    if negb (q_bit =? 0) then
      d2 ← data_at data 2;
      let n := Z.shiftl (Z.land d2 31) 6 in
      let n := Z.lor n (Z.shiftr (Z.land d3 0x80) 2) in
      let n := Z.lor n (Z.shiftr (Z.land d3 0x20) 1) in
      let n := Z.lor n (Z.land d3 0x15) in
      Ok (n * 25 - 1000)
    else Ok 0
  else Ok 0.

Definition adsb_msg_get_ac12_altitude (data : list byte) : res Z :=
  d5 ← data_at data 5;
  let q_bit := Z.land d5 1 in
  if negb (q_bit =? 0) then
    let n := Z.shiftl (Z.shiftr d5 1) 4 in
    d6 ← data_at data 6;
    let n := Z.lor n (Z.shiftr (Z.land d6 0xF0) 4) in
    Ok (n * 25 - 1000)
  else Ok 0.

(** One code point is white space for [str.strip()] and [str.isspace()]. *)
Definition py_isspace (c : N) : bool :=
  (((0x09 <=? c) && (c <=? 0x0D)) || ((0x1C <=? c) && (c <=? 0x20))
   || (c =? 0x85) || (c =? 0xA0) || (c =? 0x1680)
   || ((0x2000 <=? c) && (c <=? 0x200A))
   || (c =? 0x2028) || (c =? 0x2029) || (c =? 0x202F) || (c =? 0x205F)
   || (c =? 0x3000))%N.

Fixpoint lstrip {A : Type} (sp : A -> bool) (l : list A) : list A :=
  match l with
  | [] => []
  | x :: l' => if sp x then lstrip sp l' else l
  end.

Definition rstrip {A : Type} (sp : A -> bool) (l : list A) : list A :=
  rev (lstrip sp (rev l)).

(** [s.strip()]: white space is removed at both ends. *)
Definition strip {A : Type} (sp : A -> bool) (l : list A) : list A :=
  rstrip sp (lstrip sp l).

Definition ascii_isspace (c : ascii) : bool := py_isspace (N_of_ascii c).

Definition str_strip (s : string) : string :=
  string_of_list_ascii (strip ascii_isspace (list_ascii_of_string s)).

Definition ais_charset : string :=
  "?ABCDEFGHIJKLMNOPQRSTUVWXYZ????? ???????????????0123456789??????".

(** [ais_charset[i]] *)
Definition ais_char (i : Z) : res ascii :=
  getitem (list_ascii_of_string ais_charset) i.

Definition adsb_msg_get_flight (data : list byte) : res string :=
  let flight := [] in
  d5 ← data_at data 5;
  c ← ais_char (Z.shiftr d5 2);
  let flight := flight ++ [c] in
  d6 ← data_at data 6;
  c ← ais_char (Z.lor (Z.shiftl (Z.land d5 3) 4) (Z.shiftr d6 4));
  let flight := flight ++ [c] in
  d7 ← data_at data 7;
  c ← ais_char (Z.lor (Z.shiftl (Z.land d6 15) 2) (Z.shiftr d7 6));
  let flight := flight ++ [c] in
  c ← ais_char (Z.land d7 63);
  let flight := flight ++ [c] in
  d8 ← data_at data 8;
  c ← ais_char (Z.shiftr d8 2);
  let flight := flight ++ [c] in
  d9 ← data_at data 9;
  c ← ais_char (Z.lor (Z.shiftl (Z.land d8 3) 4) (Z.shiftr d9 4));
  let flight := flight ++ [c] in
  d10 ← data_at data 10;
  c ← ais_char (Z.lor (Z.shiftl (Z.land d9 15) 2) (Z.shiftr d10 6));
  let flight := flight ++ [c] in
  c ← ais_char (Z.land d10 63);
  let flight := flight ++ [c] in
  Ok (str_strip (string_of_list_ascii flight)).

Definition adsb_msg_get_airborne_position (data : list byte)
    : res (bool * Z * Z) :=
  d6 ← data_at data 6;
  let paireven := negb (Z.land d6 (Z.shiftl 1 2) =? 0) in
  let lat := Z.shiftl (Z.land d6 3) 15 in
  d7 ← data_at data 7;
  let lat := Z.lor lat (Z.shiftl d7 7) in
  d8 ← data_at data 8;
  let lat := Z.lor lat (Z.shiftr d8 1) in
  let lon := Z.shiftl (Z.land d8 1) 16 in
  d9 ← data_at data 9;
  let lon := Z.lor lon (Z.shiftl d9 8) in
  d10 ← data_at data 10;
  let lon := Z.lor lon d10 in
  Ok (paireven, lat, lon).

Definition adsb_msg_get_airborne_velocity (data : list byte) : res R :=
  d5 ← data_at data 5;
  let ew_dir := Z.shiftr (Z.land d5 4) 2 in
  d6 ← data_at data 6;
  let ew_velocity := Z.lor (Z.shiftl (Z.land d5 3) 8) d6 in
  d7 ← data_at data 7;
  let ns_dir := Z.shiftr (Z.land d7 0x80) 7 in
  d8 ← data_at data 8;
  let ns_velocity :=
    Z.lor (Z.shiftl (Z.land d7 0x7f) 3) (Z.shiftr (Z.land d8 0xe0) 5) in
  let velocity :=
    sqrt (IZR (ns_velocity * ns_velocity + ew_velocity * ew_velocity)) in
  Ok velocity.

(** [math.atan2(y, x)] on real numbers; the arguments the program passes
    are integers, so no signed zero arises. *)
Definition atan2 (y x : R) : R :=
  if Rlt_dec 0 x then atan (y / x)
  else if Rlt_dec x 0 then
    if Rle_dec 0 y then (atan (y / x) + PI)%R else (atan (y / x) - PI)%R
  else if Rlt_dec 0 y then (PI / 2)%R
  else if Rlt_dec y 0 then (- (PI / 2))%R
  else 0%R.

Definition adsb_msg_get_airborne_heading (data : list byte) : res R :=
  d5 ← data_at data 5;
  let ew_dir := Z.shiftr (Z.land d5 4) 2 in
  d6 ← data_at data 6;
  let ew_velocity := Z.lor (Z.shiftl (Z.land d5 3) 8) d6 in
  d7 ← data_at data 7;
  let ns_dir := Z.shiftr (Z.land d7 0x80) 7 in
  d8 ← data_at data 8;
  let ns_velocity :=
    Z.lor (Z.shiftl (Z.land d7 0x7f) 3) (Z.shiftr (Z.land d8 0xe0) 5) in
  let ewv := ew_velocity in
  let nsv := ns_velocity in
  let ewv := if negb (ew_dir =? 0) then ewv * -1 else ewv in
  let nsv := if negb (ns_dir =? 0) then nsv * -1 else nsv in
  let heading := atan2 (IZR ewv) (IZR nsv) in
  let heading := (heading * 360 / (PI * 2))%R in
  let heading := if Rlt_dec heading 0 then (heading + 360)%R else heading in
  Ok heading.

(** ** Text of a line: UTF-8, hexadecimal *)

Definition utf8_cont (b : Z) : bool := (0x80 <=? b) && (b <=? 0xBF).

(** [line.decode('UTF-8')]: the strict decoder, to code points. Overlong
    forms, surrogates and values above U+10FFFF are rejected. *)
Fixpoint utf8_decode (bs : list byte) : res (list N) :=
  match bs with
  | [] => Ok []
  | x0 :: r0 =>
    let b0 := byte_val x0 in
    if b0 <? 0x80 then cons (Z.to_N b0) <$> utf8_decode r0
    else match r0 with
    | [] => Raise UnicodeDecodeError
    | x1 :: r1 =>
      let b1 := byte_val x1 in
      if (0xC2 <=? b0) && (b0 <=? 0xDF) then
        if utf8_cont b1 then
          cons (Z.to_N (Z.lor (Z.shiftl (Z.land b0 0x1F) 6) (Z.land b1 0x3F)))
            <$> utf8_decode r1
        else Raise UnicodeDecodeError
      else match r1 with
      | [] => Raise UnicodeDecodeError
      | x2 :: r2 =>
        let b2 := byte_val x2 in
        if (0xE0 <=? b0) && (b0 <=? 0xEF) then
          if utf8_cont b1 && utf8_cont b2
             && (negb (b0 =? 0xE0) || (0xA0 <=? b1))
             && (negb (b0 =? 0xED) || (b1 <=? 0x9F)) then
            cons (Z.to_N (Z.lor (Z.lor (Z.shiftl (Z.land b0 0x0F) 12)
                                       (Z.shiftl (Z.land b1 0x3F) 6))
                                (Z.land b2 0x3F)))
              <$> utf8_decode r2
          else Raise UnicodeDecodeError
        else match r2 with
        | [] => Raise UnicodeDecodeError
        | x3 :: r3 =>
          let b3 := byte_val x3 in
          if (0xF0 <=? b0) && (b0 <=? 0xF4) then
            if utf8_cont b1 && utf8_cont b2 && utf8_cont b3
               && (negb (b0 =? 0xF0) || (0x90 <=? b1))
               && (negb (b0 =? 0xF4) || (b1 <=? 0x8F)) then
              cons (Z.to_N (Z.lor (Z.lor (Z.lor (Z.shiftl (Z.land b0 0x07) 18)
                                                (Z.shiftl (Z.land b1 0x3F) 12))
                                         (Z.shiftl (Z.land b2 0x3F) 6))
                                  (Z.land b3 0x3F)))
                <$> utf8_decode r3
            else Raise UnicodeDecodeError
          else Raise UnicodeDecodeError
        end
      end
    end
  end.

(** [s[1:-1]] *)
Definition slice_1_m1 {A : Type} (s : list A) : list A :=
  removelast (tail s).

(** White space [bytearray.fromhex] skips between two bytes. *)
Definition hex_isspace (c : N) : bool :=
  (((0x09 <=? c) && (c <=? 0x0D)) || (c =? 0x20))%N.

Definition hex_digit_value (c : N) : option Z :=
  (if (0x30 <=? c) && (c <=? 0x39) then Some (Z.of_N c - 0x30)%Z
   else if (0x61 <=? c) && (c <=? 0x66) then Some (Z.of_N c - 0x61 + 10)%Z
   else if (0x41 <=? c) && (c <=? 0x46) then Some (Z.of_N c - 0x41 + 10)%Z
   else None)%N.

Definition byte_of_Z (z : Z) : byte :=
  default Byte.x00 (Byte.of_N (Z.to_N z)).

Fixpoint fromhex_pairs (s : list N) : res (list byte) :=
  match s with
  | [] => Ok []
  | c :: s' =>
    if hex_isspace c then fromhex_pairs s'
    else match hex_digit_value c, s' with
         | Some top, d :: s'' =>
           match hex_digit_value d with
           | Some bot =>
             cons (byte_of_Z (Z.shiftl top 4 + bot)) <$> fromhex_pairs s''
           | None => Raise ValueError
           end
         | _, _ => Raise ValueError
         end
  end.

(** [bytearray.fromhex(s)]: two hexadecimal digits per byte, ASCII white
    space allowed between bytes, [ValueError] on anything else. *)
Definition fromhex (s : list N) : res (list byte) :=
  if forallb (fun c => c <? 128)%N s then fromhex_pairs s
  else Raise ValueError.

Definition hex_char (n : Z) : ascii :=
  nth (Z.to_nat n) (list_ascii_of_string "0123456789abcdef") "0"%char.

(** [b.hex()] *)
Definition hex (bs : list byte) : string :=
  string_of_list_ascii
    (flat_map (fun b => [hex_char (Z.shiftr (byte_val b) 4);
                         hex_char (Z.land (byte_val b) 15)]) bs).

(** [bytearray.fromhex(line.decode('UTF-8').strip()[1:-1])] *)
Definition decode_line (line : list byte) : res (list byte) :=
  text ← utf8_decode line;
  fromhex (slice_1_m1 (strip py_isspace text)).

(** ** Output records *)

Inductive value : Type :=
| VStr (s : string)
| VBool (b : bool)
| VInt (n : Z)
| VFloat (x : R).

Abbreviation record := (gmap string value).

(** [for x in l: s = body(x, s)], stopping at the first exception. *)
Fixpoint for_each {A St : Type} (body : A -> St -> res St) (l : list A)
    (s : St) : res St :=
  match l with
  | [] => Ok s
  | x :: l' => s' ← body x s; for_each body l' s'
  end.

(** What one line of input leads to. *)
Inductive line_result : Type :=
| CrcDrop            (* the [continue] of the checksum test *)
| Silent             (* end of the loop body without [json.dumps] *)
| Emit (o : record). (* [json.dumps(output)] handed to [handle_json] *)

(** Messages sent with [send_datasource_error_report]. *)
Inductive error_report : Type :=
| UnableToProcess (e : exn)
| NoValidDevices
| CouldNotProcessOutput.

Record thread_state : Type := mk_thread_state {
  emitted : list record;        (* arguments of [handle_json], oldest first *)
  reports : list error_report;  (* error reports, oldest first *)
  seen_any_valid : bool;
  spun_down : bool;             (* [self.kismet.spindown()] was called *)
  killed : bool                 (* [self.rtl_exec.kill()] was called *)
}.

Definition initial_state : thread_state :=
  mk_thread_state [] [] false false false.

Section Ingestion.

(** [self.airplanes]: the rows of the aircraft table. *)
Variable airplanes : list (list string).
(** [self.rtl_reconfigure] when the thread leaves its loop. *)
Variable rtl_reconfigure : bool.
(** Whether [send_datasource_data_report] accepts a record; [false]
    stands for an exception inside [handle_json]. *)
Variable send_data_report : record -> bool.

(** The body of [for row in self.airplanes]. *)
Definition registry_row (msgicao : string) (row : list string)
    (output : record) : res record :=
  r0 ← getitem row 0;
  if String.eqb msgicao r0 then
    r1 ← getitem row 1;
    let output := <["regid" := VStr r1]> output in
    r2 ← getitem row 2;
    let output := <["mdl" := VStr r2]> output in
    r3 ← getitem row 3;
    let output := <["type" := VStr r3]> output in
    r4 ← getitem row 4;
    let output := <["operator" := VStr r4]> output in
    Ok output
  else Ok output.

(** The loop body after the checksum test: [None] when the end of the
    body is reached without [json.dumps]. *)
Definition dispatch (msg : list byte) (msgtype : Z) : res (option record) :=
  let output : record := ∅ in
  let msgicao := hex (adsb_msg_get_icao msg) in
  let output := <["icao" := VStr msgicao]> output in
  output ← for_each (registry_row msgicao) airplanes output;
  if msgtype =? 17 then
    '(msgme, msgsubme) ← adsb_msg_get_me_subme msg;
    output ←
      (if (1 <=? msgme) && (msgme <=? 4) then
         msgflight ← adsb_msg_get_flight msg;
         Ok (<["callsign" := VStr msgflight]> output)
       else Ok output);
    output ←
      (if (msgme =? 19) && ((1 <=? msgsubme) && (msgsubme <=? 4)) then
         '(msgpair, msglat, msglon) ← adsb_msg_get_airborne_position msg;
         let output := <["coordpair_even" := VBool msgpair]> output in
         let output := <["raw_lat" := VInt msglat]> output in
         let output := <["raw_lon" := VInt msglon]> output in
         msgalt ← adsb_msg_get_ac12_altitude msg;
         let output := <["altitude" := VInt msgalt]> output in
         if (msgsubme =? 1) || (msgsubme =? 2) then
           msgvelocity ← adsb_msg_get_airborne_velocity msg;
           msgheading ← adsb_msg_get_airborne_heading msg;
           let output := <["speed" := VFloat msgvelocity]> output in
           let output := <["heading" := VFloat msgheading]> output in
           Ok output
         else Ok output
       else if (msgtype =? 0) || (msgtype =? 4) || (msgtype =? 16)
               || (msgtype =? 20) then
         msgalt ← adsb_msg_get_ac13_altitude msg;
         Ok (<["altitude" := VInt msgalt]> output)
       else Ok output);
    Ok (Some output)
  else Ok None.

(** The loop body up to [json.dumps]. *)
Definition process_msg (msg : list byte) : res line_result :=
  msgtype ← adsb_msg_get_type msg;
  let msgbits := adsb_len_by_type msgtype in
  msgcrc ← adsb_msg_get_crc msg msgbits;
  msgcrc2 ← adsb_crc msg msgbits;
  if negb (msgcrc =? msgcrc2) then Ok CrcDrop
  else
    o ← dispatch msg msgtype;
    match o with
    | Some output => Ok (Emit output)
    | None => Ok Silent
    end.

Definition process_line (line : list byte) : res line_result :=
  msg ← decode_line line; process_msg msg.

(** [for line in self.rtl_exec.stdout], on the lines the decoder writes
    before its output ends. The state is returned with the exception
    that left the loop, if any. *)
Fixpoint rtl_lines (lines : list (list byte)) (st : thread_state)
    : thread_state * res unit :=
  match lines with
  | [] => (st, Ok tt)
  | line :: rest =>
    match process_line line with
    | Raise e => (st, Raise e)
    | Ok CrcDrop => rtl_lines rest st
    | Ok Silent => rtl_lines rest st
    | Ok (Emit o) =>
      let st := mk_thread_state (emitted st ++ [o]) (reports st)
                  (seen_any_valid st) (spun_down st) (killed st) in
      if send_data_report o then
        rtl_lines rest
          (mk_thread_state (emitted st) (reports st) true
             (spun_down st) (killed st))
      else
        (mk_thread_state (emitted st)
           (reports st ++ [CouldNotProcessOutput])
           (seen_any_valid st) (spun_down st) (killed st),
         Raise (RuntimeError "could not process response from rtladsb"))
    end
  end.

(** [__rtl_thread] once the decoder process is started: the loop, then
    the [except] and [finally] clauses. *)
Definition rtl_thread (lines : list (list byte)) : thread_state :=
  let '(st, r) := rtl_lines lines initial_state in
  let e := match r with
           | Raise e => e
           | Ok _ => RuntimeError "rtl_adsb process exited"
           end in
  let st :=
    if negb rtl_reconfigure then
      mk_thread_state (emitted st) (reports st ++ [UnableToProcess e])
        (seen_any_valid st) (spun_down st) (killed st)
    else st in
  let st :=
    if negb (seen_any_valid st) && negb rtl_reconfigure then
      mk_thread_state (emitted st) (reports st ++ [NoValidDevices])
        (seen_any_valid st) true (killed st)
    else st in
  mk_thread_state (emitted st) (reports st) (seen_any_valid st)
    (spun_down st) true.

End Ingestion.

(** Text of a line as the decoder writes it, from a literal. *)
Definition bytes_of_string (s : string) : list byte :=
  map Ascii.byte_of_ascii (list_ascii_of_string s).

(** ** Sample input *)

(** A 56-bit frame of type 4 with a correct checksum; its altitude field
    has the Q bit set, the M bit clear and encodes 100. *)
Definition frame_type4 : list byte :=
  [Byte.x20; Byte.x00; Byte.x01; Byte.x94; Byte.x89; Byte.xb5; Byte.xf1].

(** The 112-bit frame [8D4840D6202CC371C32CE0576098] (type 17). *)
Definition frame_klm : list byte :=
  [Byte.x8d; Byte.x48; Byte.x40; Byte.xd6; Byte.x20; Byte.x2c; Byte.xc3;
   Byte.x71; Byte.xc3; Byte.x2c; Byte.xe0; Byte.x57; Byte.x60; Byte.x98].

(** ** Definitions used by the statements *)

(** A subscript is within the frame of [bits] bits, or within the table. *)
Definition access_ok (bits : Z) (a : access) : Prop :=
  match a with
  | ReadData i => 0 <= i <= bits / 8 - 1
  | ReadTable i => 0 <= i <= 111
  end.

(** Bit [j] of a frame, bit 0 being the most significant bit of byte 0. *)
Definition frame_bit (frame : list byte) (j : Z) : bool :=
  match frame !! Z.to_nat (j / 8) with
  | Some b => Z.testbit (byte_val b) (7 - j mod 8)
  | None => false
  end.

Definition table_entry (i : Z) : Z := nth (Z.to_nat i) modes_checksum_table 0.

(** The accumulator over bit positions [0 .. bit_length): each set bit [j]
    XORs in the table entry [j + offset]; the result is masked to 24 bits. *)
Definition spec_compute_crc (frame : list byte) (bit_length : Z) : Z :=
  let offset := if bit_length =? 112 then 0 else 56 in
  let acc :=
    fold_left
      (fun acc j =>
         if frame_bit frame j then Z.lxor acc (table_entry (j + offset))
         else acc)
      (seqZ 0 bit_length) 0 in
  Z.land acc (2 ^ 24 - 1).

(** The last three bytes of a frame as a big-endian integer. *)
Definition spec_extract_embedded_crc (frame : list byte) : Z :=
  fold_left (fun acc b => acc * 256 + byte_val b)
    (drop (length frame - 3) frame) 0.

#[global] Instance exn_eq_dec : EqDecision exn.
Proof. solve_decision. Defined.

#[global] Instance res_eq_dec {A : Type} `{EqDecision A} : EqDecision (res A).
Proof. solve_decision. Defined.

Definition all_bytes : list byte := map byte_of_Z (seqZ 0 256).

(** The bits of a byte, most significant first. *)
Definition byte_bits (b : byte) : list bool :=
  map (Z.testbit (byte_val b)) [7; 6; 5; 4; 3; 2; 1; 0].

(** The integer a list of bits spells, most significant first. *)
Definition bits_value (bs : list bool) : Z :=
  fold_left (fun acc b => 2 * acc + Z.b2z b) bs 0.

Definition ais_table (code : Z) : ascii :=
  nth (Z.to_nat code) (list_ascii_of_string ais_charset) "?"%char.

(** The eight 6-bit codes of a 48-bit field, in order. *)
Definition sixbit_codes (field : list byte) : list Z :=
  let bits := flat_map byte_bits field in
  map (fun i => bits_value (take 6 (drop (6 * i) bits))) (seq 0 8).

(** The callsign field of a frame (bytes 5 to 10) through the character
    table, before any trimming. *)
Definition spec_callsign_field (data : list byte) : string :=
  string_of_list_ascii (map ais_table (sixbit_codes (take 6 (drop 5 data)))).

(** Trailing white space removed only. *)
Definition str_rstrip (s : string) : string :=
  string_of_list_ascii (rstrip ascii_isspace (list_ascii_of_string s)).

(** A frame whose callsign field spells [" ABC    "]. *)
Definition frame_lead_space : list byte :=
  [Byte.x8d; Byte.x48; Byte.x40; Byte.xd6; Byte.x20; Byte.x80; Byte.x10;
   Byte.x83; Byte.x82; Byte.x08; Byte.x20; Byte.x81; Byte.xe1; Byte.x53].

(** A frame whose callsign field spells ["ABC     "]. *)
Definition frame_abc : list byte :=
  [Byte.x8d; Byte.x48; Byte.x40; Byte.xd6; Byte.x20; Byte.x04; Byte.x20;
   Byte.xe0; Byte.x82; Byte.x08; Byte.x20; Byte.x00; Byte.x00; Byte.x00].

(** The 13-bit altitude field: the low five bits of byte 2, then byte 3. *)
Definition ac13_field_bits (data : list byte) : list bool :=
  match data !! 2%nat, data !! 3%nat with
  | Some b2, Some b3 => drop 3 (byte_bits b2) ++ byte_bits b3
  | _, _ => []
  end.

(** The M bit is bit 6 of byte 3, the Q bit is bit 4 of byte 3: positions
    6 and 8 of the field, counted from its most significant bit. *)
Definition ac13_m_bit (data : list byte) : bool :=
  nth 6 (ac13_field_bits data) false.

Definition ac13_q_bit (data : list byte) : bool :=
  nth 8 (ac13_field_bits data) false.

(** The 11-bit integer left once the M and Q bits are removed. *)
Definition spec_ac13_n (data : list byte) : Z :=
  let bits := ac13_field_bits data in
  bits_value (take 6 bits ++ take 1 (drop 7 bits) ++ drop 9 bits).

(** What the design document asks of the 13-bit altitude. *)
Definition spec_altitude13 (data : list byte) : Z :=
  if negb (ac13_m_bit data) && ac13_q_bit data
  then spec_ac13_n data * 25 - 1000 else 0.

Definition registry_keys : gset string :=
  {[ "regid"; "mdl"; "type"; "operator" ]}.

(** Every row of the aircraft table has its five columns. *)
Definition registry_ok (airplanes : list (list string)) : Prop :=
  Forall (fun row : list string => (5 <= length row)%nat) airplanes.

(** Some row of the table is the row of this ICAO address. *)
Definition registry_match (msgicao : string) (airplanes : list (list string))
    : Prop :=
  Exists (fun row : list string => row !! 0%nat = Some msgicao) airplanes.

(** The record before the type-dependent fields are added. *)
Definition base_record (msg : list byte) : record :=
  <["icao" := VStr (hex (adsb_msg_get_icao msg))]> ∅.

(** The keys the type-dependent branches write. *)
Definition field_keys : gset string :=
  {[ "callsign"; "coordpair_even"; "raw_lat"; "raw_lon"; "altitude";
     "speed"; "heading" ]}.

(** A frame whose checksum test passes: the embedded and the computed
    checksum are both obtained and are equal. *)
Definition crc_valid (msg : list byte) (msgtype : Z) : Prop :=
  adsb_msg_get_type msg = Ok msgtype
  /\ exists crc,
       adsb_msg_get_crc msg (adsb_len_by_type msgtype) = Ok crc
       /\ adsb_crc msg (adsb_len_by_type msgtype) = Ok crc.

(** No extractor rule of a type-17 frame applies. *)
Definition no_rule (msgme msgsubme : Z) : Prop :=
  ~ (1 <= msgme <= 4) /\ ~ (msgme = 19 /\ 1 <= msgsubme <= 4).

(** The frame [frame_klm] with its last byte changed. *)
Definition line_bad_crc : list byte :=
  bytes_of_string "*8D4840D6202CC371C32CE0576099;".

Definition frame_bad_crc : list byte :=
  [Byte.x8d; Byte.x48; Byte.x40; Byte.xd6; Byte.x20; Byte.x2c; Byte.xc3;
   Byte.x71; Byte.xc3; Byte.x2c; Byte.xe0; Byte.x57; Byte.x60; Byte.x99].

Definition line_klm : list byte :=
  bytes_of_string "*8D4840D6202CC371C32CE0576098;".

(** The payload is shorter than the frame its type announces. *)
Definition msg_too_short (msg : list byte) : Prop :=
  match msg with
  | [] => True
  | b :: _ =>
    Z.of_nat (length msg) < adsb_len_by_type (Z.shiftr (byte_val b) 3) / 8
  end.

(** UTF-8 or hexadecimal decoding raises, or the payload is too short. *)
Definition line_malformed (line : list byte) : Prop :=
  (exists e, decode_line line = Raise e)
  \/ (exists msg, decode_line line = Ok msg /\ msg_too_short msg).

Definition line_bad_hex : list byte := bytes_of_string "*zz;".

(** A 56-bit frame of type 5 with a correct checksum. *)
Definition frame_type5 : list byte :=
  [Byte.x28; Byte.x00; Byte.x01; Byte.x94; Byte.x29; Byte.xab; Byte.x60].

Definition line_type5 : list byte := bytes_of_string "*2800019429AB60;".

Definition line_type4 : list byte := bytes_of_string "*2000019489B5F1;".

(** A 112-bit frame of type 17 with a correct checksum whose ME type is 0:
    no extractor rule applies. *)
Definition frame_no_rule : list byte :=
  [Byte.x8d; Byte.x48; Byte.x40; Byte.xd6; Byte.x00; Byte.x80; Byte.x10;
   Byte.x83; Byte.x82; Byte.x08; Byte.x20; Byte.xf1; Byte.xc7; Byte.x15].

Definition line_no_rule : list byte :=
  bytes_of_string "*8D4840D600801083820820F1C715;".

(** An aircraft table with the row of the address [4840d6]. *)
Definition sample_registry : list (list string) :=
  [["4840d6"; "REGID"; "MODEL"; "TYPE"; "OPERATOR"]].

(** ** Frame bytes and fields, for the extractors *)

(** Byte [i] of a buffer as an integer, 0 past its end. *)
Definition frame_byte (data : list byte) (i : nat) : Z :=
  match data !! i with
  | Some b => byte_val b
  | None => 0
  end.

(** Bytes [i], [i+1], [i+2] of a buffer as one big-endian integer. *)
Definition frame_be24 (data : list byte) (i : nat) : Z :=
  frame_byte data i * 65536 + frame_byte data (i + 1) * 256
  + frame_byte data (i + 2).

(** The 12-bit altitude field of a type-17 frame: byte 5, then the high
    half of byte 6. Its Q bit is the last bit of byte 5. *)
Definition ac12_field_bits (data : list byte) : list bool :=
  match data !! 5%nat, data !! 6%nat with
  | Some b5, Some b6 => byte_bits b5 ++ take 4 (byte_bits b6)
  | _, _ => []
  end.

Definition ac12_q_bit (data : list byte) : bool :=
  Z.testbit (frame_byte data 5) 0.

(** The 11-bit integer left once the Q bit is removed. *)
Definition spec_ac12_n (data : list byte) : Z :=
  let bits := ac12_field_bits data in
  bits_value (take 7 bits ++ drop 8 bits).

(** East-west and north-south magnitudes of the velocity message: ten bits
    each, after the direction bit. *)
Definition ew_magnitude (data : list byte) : Z :=
  (frame_byte data 5 * 256 + frame_byte data 6) mod 1024.

Definition ns_magnitude (data : list byte) : Z :=
  ((frame_byte data 7 * 256 + frame_byte data 8) / 32) mod 1024.

(** The direction bits: bit 2 of byte 5 (west), bit 7 of byte 7 (south). *)
Definition ew_west (data : list byte) : bool :=
  Z.testbit (frame_byte data 5) 2.

Definition ns_south (data : list byte) : bool :=
  Z.testbit (frame_byte data 7) 7.

(** Degrees of the direction of a velocity vector, in the way of
    [adsb_msg_get_airborne_heading]. *)
Definition heading_of (ewv nsv : Z) : R :=
  let heading := (atan2 (IZR ewv) (IZR nsv) * 360 / (PI * 2))%R in
  if Rlt_dec heading 0 then (heading + 360)%R else heading.

(** The signed velocity components: west and south are negative. *)
Definition signed_ew (data : list byte) : Z :=
  if ew_west data then - ew_magnitude data else ew_magnitude data.

Definition signed_ns (data : list byte) : Z :=
  if ns_south data then - ns_magnitude data else ns_magnitude data.

(** ** Text, for the round trips *)

(** The code points of an ASCII string. *)
Definition codepoints (s : string) : list N :=
  map N_of_ascii (list_ascii_of_string s).

(** The code point of a byte below 128. *)
Definition byte_code (b : byte) : N := Z.to_N (byte_val b).

(** A byte that is ASCII and no white space for [str.strip()]. *)
Definition ascii_mark (b : byte) : Prop :=
  byte_val b < 128 /\ py_isspace (byte_code b) = false.

(** A byte that is ASCII white space. *)
Definition ascii_blank (b : byte) : Prop :=
  byte_val b < 128 /\ py_isspace (byte_code b) = true.

Definition is_lower_hex (c : ascii) : Prop :=
  In c (list_ascii_of_string "0123456789abcdef").

(** ** Checksum bytes *)

(** The three bytes of a 24-bit checksum, most significant first. *)
Definition crc_bytes (crc : Z) : list byte :=
  [byte_of_Z (Z.shiftr crc 16); byte_of_Z (Z.land (Z.shiftr crc 8) 255);
   byte_of_Z (Z.land crc 255)].

(** * Properties *)

(** ** Subscripts and loops *)

Lemma byte_val_range (b : byte) : 0 <= byte_val b < 256.
Proof.
  unfold byte_val. pose proof (Byte.to_N_bounded b). lia.
Qed.

Lemma getitem_ok {A : Type} (l : list A) (i : Z) :
  0 <= i < Z.of_nat (length l) ->
  exists x, l !! Z.to_nat i = Some x /\ getitem l i = Ok x.
Proof.
  intros Hi. unfold getitem.
  destruct (Z.ltb_spec i 0) as [?|_]; [lia|].
  destruct (Z.ltb_spec i 0) as [?|_]; [lia|].
  destruct (lookup_lt_is_Some_2 l (Z.to_nat i)) as [x Hx]; [lia|].
  exists x. by rewrite Hx.
Qed.

Lemma getitem_past_end {A : Type} (l : list A) (i : Z) :
  Z.of_nat (length l) <= i -> getitem l i = Raise IndexError.
Proof.
  intros Hi. unfold getitem.
  destruct (Z.ltb_spec i 0) as [?|_]; [lia|].
  destruct (Z.ltb_spec i 0) as [?|_]; [lia|].
  rewrite lookup_ge_None_2; [done|lia].
Qed.

Lemma data_at_ok (data : list byte) (i : Z) :
  0 <= i < Z.of_nat (length data) ->
  exists b, data !! Z.to_nat i = Some b /\ data_at data i = Ok (byte_val b).
Proof.
  intros Hi. destruct (getitem_ok data i Hi) as (b & Hb & Hg).
  exists b. split; [done|]. unfold data_at. by rewrite Hg.
Qed.

Lemma data_at_past_end (data : list byte) (i : Z) :
  Z.of_nat (length data) <= i -> data_at data i = Raise IndexError.
Proof.
  intros Hi. unfold data_at. by rewrite getitem_past_end.
Qed.

(** A loop whose body keeps an invariant and never raises within the
    range runs to its end and keeps the invariant. *)
Lemma for_range_inv {St : Type} (P : Z -> St -> Prop)
    (body : Z -> St -> res St) (n : nat) :
  forall (start : Z) (s : St),
  P start s ->
  (forall j s0, start <= j < start + Z.of_nat n -> P j s0 ->
     exists s1, body j s0 = Ok s1 /\ P (j + 1) s1) ->
  exists s', for_range body start n s = Ok s' /\ P (start + Z.of_nat n) s'.
Proof.
  induction n as [|n IH]; intros start s HP Hbody.
  - exists s. split; [done|]. by replace (start + Z.of_nat 0) with start by lia.
  - destruct (Hbody start s) as (s1 & Hs1 & HP1); [lia|done|].
    destruct (IH (start + 1) s1 HP1) as (s' & Hs' & HP').
    { intros j s0 Hj. apply Hbody. lia. }
    exists s'. split.
    + simpl. rewrite Hs1. exact Hs'.
    + by replace (start + Z.of_nat (S n)) with (start + 1 + Z.of_nat n) by lia.
Qed.

Lemma land_24_range (x : Z) : 0 <= Z.land x 0x00FFFFFF < 2 ^ 24.
Proof.
  change 0x00FFFFFF with (Z.ones 24). rewrite Z.land_ones by lia.
  apply Z.mod_pos_bound. lia.
Qed.

Lemma checksum_table_length : length modes_checksum_table = 112%nat.
Proof. reflexivity. Qed.

Lemma crc_quot_div (j : Z) : 0 <= j -> Z.quot j 8 = j / 8.
Proof. intros Hj. apply Z.quot_div_nonneg; lia. Qed.

(** ** The checksum stays within its buffers *)

Lemma adsb_crc_body_ok (data : list byte) (bits offset j crc : Z)
    (log : list access) :
  bits = 56 \/ bits = 112 ->
  bits / 8 <= Z.of_nat (length data) ->
  0 <= j < bits -> 0 <= offset -> bits + offset <= 112 ->
  Forall (access_ok bits) log ->
  exists crc' log',
    adsb_crc_body data offset j (crc, log) = Ok (crc', log')
    /\ Forall (access_ok bits) log'.
Proof.
  intros Hbits Hlen Hj Hoff Hsum Hlog. unfold adsb_crc_body.
  rewrite crc_quot_div by lia.
  assert (Hbyte : 0 <= j / 8 <= bits / 8 - 1).
  { destruct Hbits; subst bits; Z.div_mod_to_equations; lia. }
  destruct (data_at_ok data (j / 8)) as (b & _ & ->); [lia|]. simpl.
  destruct (Z.land (byte_val b) (Z.shiftl 1 (7 - j mod 8)) =? 0).
  - eexists _, _. split; [done|].
    apply Forall_app. split; [done|].
    constructor; [simpl; lia|constructor].
  - destruct (getitem_ok modes_checksum_table (j + offset)) as (t & _ & ->).
    { rewrite checksum_table_length. lia. }
    simpl. eexists _, _. split; [done|].
    apply Forall_app. split; [done|].
    constructor; [simpl; lia|]. constructor; [simpl; lia|constructor].
Qed.

(** C10: for [bits] 56 or 112 and a buffer of at least [bits/8] bytes,
    [adsb_crc] returns; every [data] subscript it evaluates lies in
    [0 .. bits/8 - 1], every [modes_checksum_table] subscript lies in
    [0 .. 111], the table has 112 entries, and the result is a
    non-negative integer below [2^24]. *)
Theorem adsb_crc_in_bounds (data : list byte) (bits : Z) :
  bits = 56 \/ bits = 112 ->
  bits / 8 <= Z.of_nat (length data) ->
  exists crc log,
    adsb_crc_run data bits = Ok (crc, log)
    /\ adsb_crc data bits = Ok crc
    /\ Forall (access_ok bits) log
    /\ length modes_checksum_table = 112%nat
    /\ 0 <= crc < 2 ^ 24.
Proof.
  intros Hbits Hlen.
  set (offset := if negb (bits =? 112) then 112 - 56 else 0).
  assert (Hoff : 0 <= offset /\ bits + offset <= 112).
  { destruct Hbits; subst bits offset; simpl; lia. }
  destruct (for_range_inv
              (fun _ s => Forall (access_ok bits) (snd s))
              (adsb_crc_body data offset) (Z.to_nat bits) 0 (0, []))
    as ([crc log] & Hrun & Hlog).
  { constructor. }
  { intros j [crc0 log0] Hj Hlog0.
    destruct (adsb_crc_body_ok data bits offset j crc0 log0)
      as (crc1 & log1 & Hb & Hl); try done; try lia.
    exists (crc1, log1). by split. }
  exists (Z.land crc 0x00FFFFFF), log.
  assert (Hr : adsb_crc_run data bits = Ok (Z.land crc 0x00FFFFFF, log)).
  { unfold adsb_crc_run. fold offset. by rewrite Hrun. }
  split; [exact Hr|]. split.
  { unfold adsb_crc. by rewrite Hr. }
  split; [exact Hlog|]. split; [reflexivity|]. apply land_24_range.
Qed.

Lemma adsb_crc_in_bounds_witness :
  exists crc log,
    adsb_crc_run frame_type4 56 = Ok (crc, log)
    /\ adsb_crc frame_type4 56 = Ok crc
    /\ Forall (access_ok 56) log
    /\ length modes_checksum_table = 112%nat
    /\ 0 <= crc < 2 ^ 24.
Proof.
  apply (adsb_crc_in_bounds frame_type4 56).
  - left. reflexivity.
  - vm_compute. discriminate.
Defined.

(** ** The checksum, as the design document words it *)

Lemma land_pow2_eqb (d k : Z) :
  0 <= k -> (Z.land d (Z.shiftl 1 k) =? 0) = negb (Z.testbit d k).
Proof.
  intros Hk. rewrite Z.shiftl_1_l.
  destruct (Z.testbit d k) eqn:Hd; simpl.
  - apply Z.eqb_neq. intros H0.
    assert (Ht : Z.testbit (Z.land d (2 ^ k)) k = true).
    { by rewrite Z.land_spec, Hd, Z.pow2_bits_true. }
    rewrite H0, Z.bits_0 in Ht. discriminate.
  - apply Z.eqb_eq. apply Z.bits_inj'. intros n Hn.
    rewrite Z.land_spec, Z.bits_0, Z.pow2_bits_eqb by lia.
    destruct (Z.eqb_spec k n) as [->|_]; [by rewrite Hd|].
    apply andb_false_r.
Qed.

Lemma lor_add_disjoint (x y k : Z) :
  0 <= k -> 0 <= y < 2 ^ k -> Z.lor (x * 2 ^ k) y = x * 2 ^ k + y.
Proof.
  intros Hk Hy. rewrite <- Z.add_lor_land.
  enough (Z.land (x * 2 ^ k) y = 0) as -> by lia.
  apply Z.bits_inj'. intros n Hn. rewrite Z.land_spec, Z.bits_0.
  destruct (Z.lt_ge_cases n k) as [Hlt|Hge].
  - by rewrite Z.mul_pow2_bits_low.
  - assert (Hyn : Z.testbit y n = false).
    { rewrite <- (Z.mod_small y (2 ^ k)) by lia.
      apply Z.mod_pow2_bits_high. lia. }
    rewrite Hyn. apply andb_false_r.
Qed.

Lemma big_endian_24 (a b c : byte) :
  Z.lor (Z.lor (Z.shiftl (byte_val a) 16) (Z.shiftl (byte_val b) 8))
    (byte_val c)
  = ((0 * 256 + byte_val a) * 256 + byte_val b) * 256 + byte_val c.
Proof.
  pose proof (byte_val_range a). pose proof (byte_val_range b).
  pose proof (byte_val_range c).
  rewrite !Z.shiftl_mul_pow2 by lia.
  rewrite (lor_add_disjoint (byte_val a) (byte_val b * 2 ^ 8) 16) by lia.
  replace (byte_val a * 2 ^ 16 + byte_val b * 2 ^ 8)
    with ((byte_val a * 2 ^ 8 + byte_val b) * 2 ^ 8) by lia.
  rewrite lor_add_disjoint by lia. lia.
Qed.

(** The loop of [adsb_crc] computes the fold of the design document. *)
Lemma adsb_crc_loop_fold (data : list byte) (bits offset : Z) :
  bits = 56 \/ bits = 112 ->
  bits / 8 <= Z.of_nat (length data) ->
  0 <= offset -> bits + offset <= 112 ->
  exists log,
    for_range (adsb_crc_body data offset) 0 (Z.to_nat bits) (0, [])
    = Ok (fold_left
            (fun acc j =>
               if frame_bit data j then Z.lxor acc (table_entry (j + offset))
               else acc)
            (seqZ 0 bits) 0, log).
Proof.
  intros Hbits Hlen Hoff Hsum.
  set (g := fun acc j =>
              if frame_bit data j then Z.lxor acc (table_entry (j + offset))
              else acc).
  destruct (for_range_inv
              (fun j s => 0 <= j /\ fst s = fold_left g (seqZ 0 j) 0)
              (adsb_crc_body data offset) (Z.to_nat bits) 0 (0, []))
    as ([crc log] & Hrun & _ & Hfold).
  { split; [lia|done]. }
  { intros j [crc0 log0] Hj [_ Hcrc0]. simpl in Hcrc0.
    assert (Hjb : 0 <= j < bits) by lia.
    assert (Hbyte : 0 <= j / 8 < Z.of_nat (length data)).
    { destruct Hbits; subst bits; Z.div_mod_to_equations; lia. }
    assert (Hseq : seqZ 0 (j + 1) = seqZ 0 j ++ [j]).
    { rewrite seqZ_app by lia. by rewrite Z.add_0_l. }
    unfold adsb_crc_body. rewrite crc_quot_div by lia.
    destruct (data_at_ok data (j / 8) Hbyte) as (b & Hb & ->). simpl.
    rewrite land_pow2_eqb by (Z.div_mod_to_equations; lia).
    assert (Hfb : frame_bit data j = Z.testbit (byte_val b) (7 - j mod 8)).
    { unfold frame_bit. by rewrite Hb. }
    destruct (Z.testbit (byte_val b) (7 - j mod 8)) eqn:Htb; simpl.
    - destruct (getitem_ok modes_checksum_table (j + offset))
        as (t & Ht & ->).
      { rewrite checksum_table_length. lia. }
      simpl. eexists. split; [done|]. split; [lia|]. simpl.
      rewrite Hseq, fold_left_app. simpl. unfold g at 1.
      rewrite Hfb, <- Hcrc0. f_equal. unfold table_entry.
      symmetry. apply nth_lookup_Some with (d := 0) in Ht. exact Ht.
    - eexists. split; [done|]. split; [lia|]. simpl.
      rewrite Hseq, fold_left_app. simpl. unfold g at 1.
      by rewrite Hfb, <- Hcrc0. }
  exists log. rewrite Hrun. simpl in Hfold. rewrite Hfold.
  by rewrite Z.add_0_l, Z2Nat.id by lia.
Qed.

Lemma adsb_msg_get_crc_at (data : list byte) (bits : Z) (a b c : byte) :
  0 <= Z.quot bits 8 - 3 ->
  data !! Z.to_nat (Z.quot bits 8 - 3) = Some a ->
  data !! Z.to_nat (Z.quot bits 8 - 2) = Some b ->
  data !! Z.to_nat (Z.quot bits 8 - 1) = Some c ->
  adsb_msg_get_crc data bits
  = Ok (Z.lor (Z.lor (Z.shiftl (byte_val a) 16) (Z.shiftl (byte_val b) 8))
          (byte_val c)).
Proof.
  intros Hq Ha Hb Hc. unfold adsb_msg_get_crc, data_at, getitem.
  repeat match goal with
         | |- context [?x <? 0] =>
           destruct (Z.ltb_spec x 0) as [?|_]; [lia|]
         end.
  by rewrite Ha, Hb, Hc.
Qed.

(** C6: for [bits] 56 or 112 and a buffer holding a frame of that length,
    [adsb_crc] returns the accumulator of the design document (bit positions
    [0 .. bits), table entry [j + offset] XORed in for each set bit [j],
    [offset] 0 for 112 bits and 56 otherwise, masked to 24 bits), and
    [adsb_msg_get_crc] returns the last three bytes of the frame as a
    big-endian integer. The frame is the first [bits/8] bytes of the
    buffer. *)
Theorem adsb_crc_refines_spec (data : list byte) (bits : Z) :
  bits = 56 \/ bits = 112 ->
  bits / 8 <= Z.of_nat (length data) ->
  adsb_crc data bits = Ok (spec_compute_crc data bits)
  /\ adsb_msg_get_crc data bits
     = Ok (spec_extract_embedded_crc (take (Z.to_nat (bits / 8)) data)).
Proof.
  intros Hbits Hlen. split.
  - set (offset := if negb (bits =? 112) then 112 - 56 else 0).
    assert (Hoff : 0 <= offset /\ bits + offset <= 112).
    { destruct Hbits; subst bits offset; simpl; lia. }
    destruct (adsb_crc_loop_fold data bits offset) as (log & Hrun);
      try done; try lia.
    unfold adsb_crc, adsb_crc_run. fold offset. rewrite Hrun. simpl.
    unfold spec_compute_crc.
    replace (if bits =? 112 then 0 else 56) with offset
      by (destruct Hbits; by subst bits offset).
    reflexivity.
  - destruct Hbits; subst bits.
    + change (56 / 8) with 7 in *. change (Z.to_nat 7) with 7%nat.
      do 7 (destruct data as [|? data]; [simpl in Hlen; lia|]).
      rewrite (adsb_msg_get_crc_at _ 56 b3 b4 b5); try done.
      unfold spec_extract_embedded_crc. rewrite big_endian_24.
      rewrite firstn_cons. reflexivity.
    + change (112 / 8) with 14 in *. change (Z.to_nat 14) with 14%nat.
      do 14 (destruct data as [|? data]; [simpl in Hlen; lia|]).
      rewrite (adsb_msg_get_crc_at _ 112 b10 b11 b12); try done.
      unfold spec_extract_embedded_crc. rewrite big_endian_24.
      reflexivity.
Qed.

Lemma adsb_crc_refines_spec_witness :
  adsb_crc frame_klm 112 = Ok (spec_compute_crc frame_klm 112)
  /\ adsb_msg_get_crc frame_klm 112
     = Ok (spec_extract_embedded_crc (take (Z.to_nat (112 / 8)) frame_klm)).
Proof.
  apply (adsb_crc_refines_spec frame_klm 112).
  - right. reflexivity.
  - vm_compute. discriminate.
Defined.

(** ** Heading *)





(** ** Facts checked over all bytes *)

Lemma byte_of_Z_val (b : byte) : byte_of_Z (byte_val b) = b.
Proof.
  unfold byte_of_Z, byte_val. by rewrite N2Z.id, Byte.of_to_N.
Qed.

Lemma all_bytes_complete (b : byte) : In b all_bytes.
Proof.
  unfold all_bytes. apply in_map_iff. exists (byte_val b).
  split; [apply byte_of_Z_val|].
  apply list_elem_of_In, elem_of_seqZ. pose proof (byte_val_range b). lia.
Qed.

(** A decidable property checked on every byte holds of every byte. *)
Lemma forall_byte (P : byte -> Prop) `{forall a, Decision (P a)} :
  forallb (fun a => bool_decide (P a)) all_bytes = true -> forall a, P a.
Proof.
  intros Hall a. rewrite forallb_forall in Hall.
  specialize (Hall a (all_bytes_complete a)).
  by apply bool_decide_eq_true in Hall.
Qed.

Lemma forall_byte2 (P : byte -> byte -> Prop)
    `{forall a b, Decision (P a b)} :
  forallb (fun a => forallb (fun b => bool_decide (P a b)) all_bytes)
    all_bytes = true ->
  forall a b, P a b.
Proof.
  intros Hall a b. rewrite forallb_forall in Hall.
  specialize (Hall a (all_bytes_complete a)).
  rewrite forallb_forall in Hall.
  specialize (Hall b (all_bytes_complete b)).
  by apply bool_decide_eq_true in Hall.
Qed.

(** Settle a goal quantified over one or two bytes by running it on all. *)
Ltac by_all_bytes :=
  lazymatch goal with
  | |- forall a b : byte, @?P a b =>
    unshelve eapply (@forall_byte2 P);
    try (intros; cbv beta; apply _); vm_compute; reflexivity
  | |- forall a : byte, @?P a =>
    unshelve eapply (@forall_byte P);
    try (intros; cbv beta; apply _); vm_compute; reflexivity
  end.

Lemma data_at_lookup (data : list byte) (i : Z) (b : byte) :
  0 <= i -> data !! Z.to_nat i = Some b -> data_at data i = Ok (byte_val b).
Proof.
  intros Hi Hb. unfold data_at, getitem.
  destruct (Z.ltb_spec i 0) as [?|_]; [lia|].
  destruct (Z.ltb_spec i 0) as [?|_]; [lia|].
  by rewrite Hb.
Qed.

(** ** Callsign *)

Lemma ais_char_high (a : byte) :
  ais_char (Z.shiftr (byte_val a) 2)
  = Ok (ais_table (bits_value (take 6 (byte_bits a)))).
Proof. revert a. by_all_bytes. Qed.

Lemma ais_char_low (a : byte) :
  ais_char (Z.land (byte_val a) 63)
  = Ok (ais_table (bits_value (drop 2 (byte_bits a)))).
Proof. revert a. by_all_bytes. Qed.

Lemma ais_char_2_4 (a b : byte) :
  ais_char (Z.lor (Z.shiftl (Z.land (byte_val a) 3) 4)
              (Z.shiftr (byte_val b) 4))
  = Ok (ais_table
          (bits_value (drop 6 (byte_bits a) ++ take 4 (byte_bits b)))).
Proof. revert a b. by_all_bytes. Qed.

Lemma ais_char_4_2 (a b : byte) :
  ais_char (Z.lor (Z.shiftl (Z.land (byte_val a) 15) 2)
              (Z.shiftr (byte_val b) 6))
  = Ok (ais_table
          (bits_value (drop 4 (byte_bits a) ++ take 2 (byte_bits b)))).
Proof. revert a b. by_all_bytes. Qed.

(** C8, as amended: on every buffer holding bytes 5 to 10, the callsign
    extractor returns the eight 6-bit codes of those bytes, each mapped
    through the 64-entry character table, concatenated in order, with white
    space removed at both ends ([str.strip]); a field spelling
    ["ABC     "] gives ["ABC"]. *)
Theorem adsb_msg_get_flight_strips_both_ends (data : list byte) :
  (11 <= length data)%nat ->
  adsb_msg_get_flight data = Ok (str_strip (spec_callsign_field data))
  /\ length (sixbit_codes (take 6 (drop 5 data))) = 8%nat
  /\ String.length ais_charset = 64%nat
  /\ adsb_msg_get_flight frame_abc = Ok "ABC"%string
  /\ spec_callsign_field frame_abc = "ABC     "%string.
Proof.
  intros Hlen. split; [|split; [reflexivity|split; [reflexivity|by vm_compute]]].
  do 11 (destruct data as [|? data]; [simpl in Hlen; lia|]).
  unfold adsb_msg_get_flight.
  rewrite (data_at_lookup _ 5 b4), (data_at_lookup _ 6 b5),
    (data_at_lookup _ 7 b6), (data_at_lookup _ 8 b7),
    (data_at_lookup _ 9 b8), (data_at_lookup _ 10 b9) by done.
  cbn [mbind res_bind].
  rewrite !ais_char_high, !ais_char_low, !ais_char_2_4, !ais_char_4_2.
  cbn [mbind res_bind]. reflexivity.
Qed.

Lemma adsb_msg_get_flight_strips_both_ends_witness :
  adsb_msg_get_flight frame_klm = Ok (str_strip (spec_callsign_field frame_klm))
  /\ length (sixbit_codes (take 6 (drop 5 frame_klm))) = 8%nat
  /\ String.length ais_charset = 64%nat
  /\ adsb_msg_get_flight frame_abc = Ok "ABC"%string
  /\ spec_callsign_field frame_abc = "ABC     "%string.
Proof.
  apply (adsb_msg_get_flight_strips_both_ends frame_klm).
  vm_compute. lia.
Defined.

(** C8 as stated fails: on a field spelling [" ABC    "] the extractor
    removes the leading space too, so its result is not the right-trimmed
    field. *)
Lemma adsb_msg_get_flight_not_right_trim :
  spec_callsign_field frame_lead_space = " ABC    "%string
  /\ str_rstrip (spec_callsign_field frame_lead_space) = " ABC"%string
  /\ adsb_msg_get_flight frame_lead_space = Ok "ABC"%string
  /\ adsb_msg_get_flight frame_lead_space
     <> Ok (str_rstrip (spec_callsign_field frame_lead_space)).
Proof.
  split; [by vm_compute|]. split; [by vm_compute|].
  split; [by vm_compute|]. by vm_compute.
Qed.

(** ** 13-bit altitude *)

Lemma ac13_altitude_two_bytes (a b : byte) :
  adsb_msg_get_ac13_altitude [Byte.x00; Byte.x00; a; b]
  = Ok (let data := [Byte.x00; Byte.x00; a; b] in
        if negb (ac13_m_bit data) && ac13_q_bit data
        then Z.lor (Z.land (spec_ac13_n data) 0x7E5) 0x10 * 25 - 1000
        else 0).
Proof. revert a b. by_all_bytes. Qed.

(** What [adsb_msg_get_ac13_altitude] computes: with M clear and Q set, the
    11-bit integer enters with its bits 1 and 3 cleared and its bit 4 set
    (the last mask is [0x15] where the field needs [15]); 0 otherwise. *)
Lemma adsb_msg_get_ac13_altitude_computes (data : list byte) :
  (4 <= length data)%nat ->
  adsb_msg_get_ac13_altitude data
  = Ok (if negb (ac13_m_bit data) && ac13_q_bit data
        then Z.lor (Z.land (spec_ac13_n data) 0x7E5) 0x10 * 25 - 1000
        else 0).
Proof.
  intros Hlen.
  do 4 (destruct data as [|? data]; [simpl in Hlen; lia|]).
  transitivity (adsb_msg_get_ac13_altitude [Byte.x00; Byte.x00; b1; b2]).
  - unfold adsb_msg_get_ac13_altitude.
    by rewrite !(data_at_lookup _ 3 b2), !(data_at_lookup _ 2 b1).
  - rewrite ac13_altitude_two_bytes. reflexivity.
Qed.

(** For any M/Q combination other than M clear and Q set the result is 0. *)
Lemma adsb_msg_get_ac13_altitude_other_mq (data : list byte) :
  (4 <= length data)%nat ->
  negb (ac13_m_bit data) && ac13_q_bit data = false ->
  adsb_msg_get_ac13_altitude data = Ok 0.
Proof.
  intros Hlen Hmq. rewrite adsb_msg_get_ac13_altitude_computes by done.
  by rewrite Hmq.
Qed.

(** C4, the failing input: in [frame_type4] the M bit is clear, the Q bit
    is set and the 11-bit integer is 100, so the altitude the design
    document asks for is [100 * 25 - 1000 = 1500]; the extractor returns
    1900. *)
Theorem adsb_msg_get_ac13_altitude_n_100 :
  ac13_m_bit frame_type4 = false
  /\ ac13_q_bit frame_type4 = true
  /\ spec_ac13_n frame_type4 = 100
  /\ spec_altitude13 frame_type4 = 1500
  /\ adsb_msg_get_ac13_altitude frame_type4 = Ok 1900.
Proof. repeat split; by vm_compute. Qed.

(** ** The registry lookup *)

Ltac bind_case H :=
  lazymatch type of H with
  | context [mbind _ ?m] =>
    let E := fresh "E" in
    destruct m eqn:E; cbn [mbind res_bind] in H; [|discriminate H]
  end.

Lemma registry_row_other (msgicao : string) (row : list string)
    (out out' : record) (k : string) :
  registry_row msgicao row out = Ok out' ->
  k ∉ registry_keys -> out' !! k = out !! k.
Proof.
  intros Hrow Hk. unfold registry_row in Hrow.
  bind_case Hrow. destruct (String.eqb msgicao a); [|by inversion Hrow].
  do 4 bind_case Hrow. inversion Hrow; subst out'.
  unfold registry_keys in Hk.
  rewrite !lookup_insert_ne by set_solver. done.
Qed.

Lemma for_each_registry_other (msgicao : string)
    (airplanes : list (list string)) (k : string) :
  k ∉ registry_keys ->
  forall out out' : record,
  for_each (registry_row msgicao) airplanes out = Ok out' ->
  out' !! k = out !! k.
Proof.
  intros Hk. induction airplanes as [|row rest IH]; intros out out' Hfor.
  - simpl in Hfor. by inversion Hfor.
  - simpl in Hfor. bind_case Hfor.
    rewrite (IH _ _ Hfor). by eapply registry_row_other.
Qed.

Lemma registry_row_ok (msgicao : string) (row : list string) (out : record) :
  (5 <= length row)%nat ->
  exists out',
    registry_row msgicao row out = Ok out'
    /\ (row !! 0%nat = Some msgicao -> dom out' = dom out ∪ registry_keys)
    /\ (row !! 0%nat <> Some msgicao -> out' = out).
Proof.
  intros Hlen.
  do 5 (destruct row as [|? row]; [simpl in Hlen; lia|]).
  unfold registry_row, getitem. simpl.
  destruct (String.eqb_spec msgicao s) as [->|Hne].
  - eexists. split; [done|]. split; [|done]. intros _.
    rewrite !dom_insert_L. unfold registry_keys. set_solver.
  - eexists. split; [done|]. split; [|done]. intros Heq. congruence.
Qed.

Lemma for_each_registry_ok (msgicao : string)
    (airplanes : list (list string)) :
  registry_ok airplanes ->
  forall out : record,
  exists out',
    for_each (registry_row msgicao) airplanes out = Ok out'
    /\ (registry_match msgicao airplanes ->
        dom out' = dom out ∪ registry_keys)
    /\ (~ registry_match msgicao airplanes -> out' = out).
Proof.
  unfold registry_match.
  induction airplanes as [|row rest IH]; intros Hok out.
  - exists out. split; [done|]. split; [|done].
    intros Hex. by apply Exists_nil in Hex.
  - apply Forall_cons in Hok as [Hrow Hrest].
    destruct (registry_row_ok msgicao row out Hrow)
      as (out1 & Hout1 & Hyes1 & Hno1).
    destruct (IH Hrest out1) as (out' & Hout' & Hyes & Hno).
    exists out'. split; [simpl; by rewrite Hout1|].
    destruct (decide (row !! 0%nat = Some msgicao)) as [Hm|Hm];
      destruct (decide (Exists (fun r : list string =>
                                  r !! 0%nat = Some msgicao) rest))
        as [Hr|Hr].
    + split; [intros _|intros []; by left].
      rewrite (Hyes Hr), (Hyes1 Hm). set_solver.
    + split; [intros _|intros []; by left].
      rewrite (Hno Hr). by apply Hyes1.
    + split; [intros _|intros []; by right].
      rewrite (Hyes Hr), (Hno1 Hm). done.
    + split.
      * intros Hex. apply Exists_cons in Hex as [?|?]; done.
      * intros _. rewrite (Hno Hr). by apply Hno1.
Qed.

(** ** The dispatcher *)

Lemma dispatch_not_17 (airplanes : list (list string)) (msg : list byte)
    (msgtype : Z) :
  msgtype <> 17 ->
  dispatch airplanes msg msgtype
  = (out ← for_each (registry_row (hex (adsb_msg_get_icao msg))) airplanes
             (base_record msg);
     Ok None).
Proof.
  intros Ht. unfold dispatch, base_record.
  destruct (for_each _ airplanes _); [|done]. cbn [mbind res_bind].
  by destruct (Z.eqb_spec msgtype 17).
Qed.

Lemma dispatch_17_no_rule (airplanes : list (list string)) (msg : list byte)
    (msgme msgsubme : Z) :
  adsb_msg_get_me_subme msg = Ok (msgme, msgsubme) ->
  no_rule msgme msgsubme ->
  dispatch airplanes msg 17
  = (out ← for_each (registry_row (hex (adsb_msg_get_icao msg))) airplanes
             (base_record msg);
     Ok (Some out)).
Proof.
  intros Hme [Hno1 Hno2]. unfold dispatch, base_record.
  destruct (for_each _ airplanes _); [|done]. cbn [mbind res_bind].
  rewrite Hme. cbn [mbind res_bind Z.eqb Pos.eqb].
  assert (H1 : (1 <=? msgme) && (msgme <=? 4) = false).
  { apply andb_false_iff. rewrite Z.leb_gt, Z.leb_gt. lia. }
  assert (H2 : (msgme =? 19) && ((1 <=? msgsubme) && (msgsubme <=? 4))
               = false).
  { destruct (Z.eqb_spec msgme 19); [|done]. simpl.
    apply andb_false_iff. rewrite Z.leb_gt, Z.leb_gt. lia. }
  rewrite H1, H2. reflexivity.
Qed.

Lemma dispatch_17_callsign (airplanes : list (list string)) (msg : list byte)
    (msgme msgsubme : Z) (msgflight : string) :
  adsb_msg_get_me_subme msg = Ok (msgme, msgsubme) ->
  1 <= msgme <= 4 ->
  adsb_msg_get_flight msg = Ok msgflight ->
  dispatch airplanes msg 17
  = (out ← for_each (registry_row (hex (adsb_msg_get_icao msg))) airplanes
             (base_record msg);
     Ok (Some (<["callsign" := VStr msgflight]> out))).
Proof.
  intros Hme Hr Hfl. unfold dispatch, base_record.
  destruct (for_each _ airplanes _); [|done]. cbn [mbind res_bind].
  rewrite Hme. cbn [mbind res_bind Z.eqb Pos.eqb].
  assert (H1 : (1 <=? msgme) && (msgme <=? 4) = true).
  { apply andb_true_iff. rewrite !Z.leb_le. lia. }
  assert (H2 : (msgme =? 19) = false) by (apply Z.eqb_neq; lia).
  rewrite H1, H2, Hfl. reflexivity.
Qed.

(** Whatever the dispatcher emits agrees with the base record outside the
    registry keys and the type-dependent keys. *)
Lemma dispatch_other_keys (airplanes : list (list string)) (msg : list byte)
    (msgtype : Z) (o : record) (k : string) :
  dispatch airplanes msg msgtype = Ok (Some o) ->
  k ∉ registry_keys -> k ∉ field_keys ->
  o !! k = base_record msg !! k.
Proof.
  intros Hd Hk1 Hk2. unfold dispatch in Hd. fold (base_record msg) in Hd.
  destruct (for_each _ airplanes _) as [out|] eqn:Hfor; [|done].
  cbn [mbind res_bind] in Hd.
  rewrite <- (for_each_registry_other _ _ k Hk1 _ _ Hfor).
  destruct (msgtype =? 17); [|done].
  destruct (adsb_msg_get_me_subme msg) as [[msgme msgsubme]|]; [|done].
  cbn [mbind res_bind] in Hd. unfold field_keys in Hk2.
  assert (Hcs : forall out1 : record,
            (if (1 <=? msgme) && (msgme <=? 4)
             then msgflight ← adsb_msg_get_flight msg;
                  Ok (<["callsign" := VStr msgflight]> out)
             else Ok out) = Ok out1 ->
            out1 !! k = out !! k).
  { intros out1 H1. destruct ((1 <=? msgme) && (msgme <=? 4)).
    - destruct (adsb_msg_get_flight msg); [|done].
      inversion H1. rewrite lookup_insert_ne by set_solver. done.
    - by inversion H1. }
  destruct (if (1 <=? msgme) && (msgme <=? 4) then _ else _)
    as [out1|] eqn:H1; [|done].
  rewrite <- (Hcs out1 eq_refl). clear Hcs H1. cbn [mbind res_bind] in Hd.
  destruct ((msgme =? 19) && ((1 <=? msgsubme) && (msgsubme <=? 4))).
  - destruct (adsb_msg_get_airborne_position msg) as [[[p la] lo]|]; [|done].
    cbn [mbind res_bind] in Hd.
    destruct (adsb_msg_get_ac12_altitude msg); [|done].
    cbn [mbind res_bind] in Hd.
    destruct ((msgsubme =? 1) || (msgsubme =? 2)).
    + destruct (adsb_msg_get_airborne_velocity msg); [|done].
      cbn [mbind res_bind] in Hd.
      destruct (adsb_msg_get_airborne_heading msg); [|done].
      inversion Hd. rewrite !lookup_insert_ne by set_solver. done.
    + inversion Hd. rewrite !lookup_insert_ne by set_solver. done.
  - destruct ((msgtype =? 0) || (msgtype =? 4) || (msgtype =? 16)
              || (msgtype =? 20)).
    + destruct (adsb_msg_get_ac13_altitude msg); [|done].
      inversion Hd. rewrite lookup_insert_ne by set_solver. done.
    + by inversion Hd.
Qed.

(** ** One line of input *)

Lemma process_msg_crc (airplanes : list (list string)) (msg : list byte)
    (msgtype msgcrc msgcrc2 : Z) :
  adsb_msg_get_type msg = Ok msgtype ->
  adsb_msg_get_crc msg (adsb_len_by_type msgtype) = Ok msgcrc ->
  adsb_crc msg (adsb_len_by_type msgtype) = Ok msgcrc2 ->
  process_msg airplanes msg
  = if negb (msgcrc =? msgcrc2) then Ok CrcDrop
    else o ← dispatch airplanes msg msgtype;
         match o with
         | Some output => Ok (Emit output)
         | None => Ok Silent
         end.
Proof.
  intros Ht Hc1 Hc2. unfold process_msg.
  rewrite Ht. cbn [mbind res_bind]. rewrite Hc1. cbn [mbind res_bind].
  rewrite Hc2. reflexivity.
Qed.

Lemma process_msg_valid (airplanes : list (list string)) (msg : list byte)
    (msgtype : Z) :
  crc_valid msg msgtype ->
  process_msg airplanes msg
  = (o ← dispatch airplanes msg msgtype;
     match o with
     | Some output => Ok (Emit output)
     | None => Ok Silent
     end).
Proof.
  intros (Ht & crc & Hc1 & Hc2).
  rewrite (process_msg_crc _ _ _ _ _ Ht Hc1 Hc2).
  by rewrite Z.eqb_refl.
Qed.

Lemma process_msg_emit_inv (airplanes : list (list string)) (msg : list byte)
    (o : record) :
  process_msg airplanes msg = Ok (Emit o) ->
  exists msgtype,
    crc_valid msg msgtype /\ dispatch airplanes msg msgtype = Ok (Some o).
Proof.
  intros Hp. unfold process_msg in Hp.
  destruct (adsb_msg_get_type msg) as [t|] eqn:Ht; [|done].
  cbn [mbind res_bind] in Hp.
  destruct (adsb_msg_get_crc msg _) as [c1|] eqn:Hc1; [|done].
  cbn [mbind res_bind] in Hp.
  destruct (adsb_crc msg _) as [c2|] eqn:Hc2; [|done].
  cbn [mbind res_bind] in Hp.
  destruct (Z.eqb_spec c1 c2) as [->|?]; [|done]. simpl in Hp.
  exists t. split; [by split; [|exists c2]|].
  destruct (dispatch airplanes msg t) as [[o'|]|]; try done.
  cbn [mbind res_bind] in Hp. by inversion Hp.
Qed.

(** ** The ingestion loop *)

Lemma rtl_thread_emitted (airplanes : list (list string))
    (rtl_reconfigure : bool) (send_data_report : record -> bool)
    (lines : list (list byte)) :
  emitted (rtl_thread airplanes rtl_reconfigure send_data_report lines)
  = emitted (fst (rtl_lines airplanes send_data_report lines initial_state)).
Proof.
  unfold rtl_thread.
  destruct (rtl_lines airplanes send_data_report lines initial_state)
    as [st r].
  destruct st as [em rp seen sp kl].
  by destruct rtl_reconfigure, seen.
Qed.

Lemma rtl_lines_raise (airplanes : list (list string))
    (send_data_report : record -> bool) (line : list byte)
    (rest : list (list byte)) (st : thread_state) (e : exn) :
  process_line airplanes line = Raise e ->
  rtl_lines airplanes send_data_report (line :: rest) st = (st, Raise e).
Proof. intros Hp. simpl. by rewrite Hp. Qed.

Lemma rtl_lines_emit_last (airplanes : list (list string))
    (send_data_report : record -> bool) (line : list byte)
    (st : thread_state) (o : record) :
  process_line airplanes line = Ok (Emit o) ->
  emitted (fst (rtl_lines airplanes send_data_report [line] st))
  = emitted st ++ [o].
Proof.
  intros Hp. simpl. rewrite Hp. by destruct (send_data_report o).
Qed.

(** *** Checksum mismatch *)

(** C7: when the computed checksum of a frame differs from the embedded
    one, the line yields no record and no exception, nothing past the test
    runs (the result is the same whatever the aircraft table holds, even
    one whose rows cannot be subscripted), and the loop goes on with the
    next line in the same state; the loop body goes past the test to the
    dispatcher if and only if the two checksums are equal. *)
Theorem crc_mismatch_silent_drop (airplanes : list (list string))
    (send_data_report : record -> bool) (line msg : list byte)
    (msgtype msgcrc msgcrc2 : Z) (rest : list (list byte))
    (st : thread_state) :
  decode_line line = Ok msg ->
  adsb_msg_get_type msg = Ok msgtype ->
  adsb_msg_get_crc msg (adsb_len_by_type msgtype) = Ok msgcrc ->
  adsb_crc msg (adsb_len_by_type msgtype) = Ok msgcrc2 ->
  (msgcrc <> msgcrc2 ->
     process_line airplanes line = Ok CrcDrop
     /\ rtl_lines airplanes send_data_report (line :: rest) st
        = rtl_lines airplanes send_data_report rest st)
  /\ (msgcrc = msgcrc2 ->
        process_line airplanes line
        = (o ← dispatch airplanes msg msgtype;
           match o with
           | Some output => Ok (Emit output)
           | None => Ok Silent
           end))
  /\ (process_line airplanes line <> Ok CrcDrop <-> msgcrc = msgcrc2).
Proof.
  intros Hdec Ht Hc1 Hc2.
  assert (Hp : process_line airplanes line
               = if negb (msgcrc =? msgcrc2) then Ok CrcDrop
                 else o ← dispatch airplanes msg msgtype;
                      match o with
                      | Some output => Ok (Emit output)
                      | None => Ok Silent
                      end).
  { unfold process_line. rewrite Hdec. cbn [mbind res_bind].
    by apply process_msg_crc. }
  assert (Hdrop : msgcrc <> msgcrc2 -> process_line airplanes line = Ok CrcDrop).
  { intros Hne. rewrite Hp.
    by destruct (Z.eqb_spec msgcrc msgcrc2). }
  assert (Hgo : msgcrc = msgcrc2 ->
                process_line airplanes line
                = (o ← dispatch airplanes msg msgtype;
                   match o with
                   | Some output => Ok (Emit output)
                   | None => Ok Silent
                   end)).
  { intros ->. rewrite Hp. by rewrite Z.eqb_refl. }
  split; [|split; [exact Hgo|]].
  - intros Hne. split; [by apply Hdrop|].
    simpl. by rewrite (Hdrop Hne).
  - split.
    + intros Hnd. destruct (Z.eq_dec msgcrc msgcrc2) as [|Hne]; [done|].
      by destruct (Hnd (Hdrop Hne)).
    + intros Heq. rewrite (Hgo Heq).
      destruct (dispatch airplanes msg msgtype) as [[o|]|]; done.
Qed.

Lemma crc_mismatch_silent_drop_witness :
  (0x576099 <> 0x576098 ->
     process_line [[]] line_bad_crc = Ok CrcDrop
     /\ rtl_lines [[]] (fun _ => true) [line_bad_crc; line_klm] initial_state
        = rtl_lines [[]] (fun _ => true) [line_klm] initial_state)
  /\ (0x576099 = 0x576098 ->
        process_line [[]] line_bad_crc
        = (o ← dispatch [[]] frame_bad_crc 17;
           match o with
           | Some output => Ok (Emit output)
           | None => Ok Silent
           end))
  /\ (process_line [[]] line_bad_crc <> Ok CrcDrop <-> 0x576099 = 0x576098).
Proof.
  apply (crc_mismatch_silent_drop [[]] (fun _ => true) line_bad_crc
           frame_bad_crc 17 0x576099 0x576098 [line_klm] initial_state).
  - vm_compute. reflexivity.
  - vm_compute. reflexivity.
  - vm_compute. reflexivity.
  - vm_compute. reflexivity.
Defined.

(** *** Malformed lines *)

Lemma data_at_cases (data : list byte) (i : Z) :
  0 <= i ->
  (Z.of_nat (length data) <= i /\ data_at data i = Raise IndexError)
  \/ (i < Z.of_nat (length data) /\ exists v, data_at data i = Ok v).
Proof.
  intros Hi. destruct (Z.le_gt_cases (Z.of_nat (length data)) i) as [Hle|Hgt].
  - left. split; [done|]. by apply data_at_past_end.
  - right. split; [lia|].
    destruct (data_at_ok data i) as (b & _ & Hb); [lia|]. by eexists.
Qed.

Lemma adsb_msg_get_crc_short (data : list byte) (bits : Z) :
  bits = 56 \/ bits = 112 ->
  Z.of_nat (length data) < bits / 8 ->
  adsb_msg_get_crc data bits = Raise IndexError.
Proof.
  intros Hbits Hlen. unfold adsb_msg_get_crc.
  assert (Hq : Z.quot bits 8 = bits / 8 /\ 3 <= bits / 8).
  { destruct Hbits; subst bits; split; by vm_compute. }
  destruct Hq as [-> Hq].
  destruct (data_at_cases data (bits / 8 - 3)) as [[_ ->]|[_ [a ->]]];
    [lia|done|].
  cbn [mbind res_bind].
  destruct (data_at_cases data (bits / 8 - 2)) as [[_ ->]|[_ [b ->]]];
    [lia|done|].
  cbn [mbind res_bind].
  destruct (data_at_cases data (bits / 8 - 1)) as [[_ ->]|[Hc _]];
    [lia|done|lia].
Qed.

Lemma adsb_len_by_type_cases (type : Z) :
  adsb_len_by_type type = 56 \/ adsb_len_by_type type = 112.
Proof.
  unfold adsb_len_by_type.
  destruct ((type =? 16) || (type =? 17) || (type =? 19) || (type =? 20)
            || (type =? 21)); auto.
Qed.

Lemma process_msg_short (airplanes : list (list string)) (msg : list byte) :
  msg_too_short msg -> process_msg airplanes msg = Raise IndexError.
Proof.
  intros Hshort. unfold process_msg, adsb_msg_get_type.
  destruct msg as [|b msg'].
  - reflexivity.
  - rewrite (data_at_lookup _ 0 b) by done. cbn [mbind res_bind].
    simpl in Hshort.
    rewrite adsb_msg_get_crc_short;
      [done|apply adsb_len_by_type_cases|exact Hshort].
Qed.

Lemma process_line_malformed (airplanes : list (list string))
    (line : list byte) :
  line_malformed line -> exists e, process_line airplanes line = Raise e.
Proof.
  intros [[e He]|(msg & Hmsg & Hshort)]; unfold process_line.
  - exists e. by rewrite He.
  - exists IndexError. rewrite Hmsg. cbn [mbind res_bind].
    by apply process_msg_short.
Qed.

(** C3, as amended: a line on which UTF-8 or hexadecimal decoding fails, or
    whose payload is too short, yields no record, and its exception leaves
    the loop: the lines after it are not read, and the thread reports the
    error ("Unable to process output from rtladsb") unless a
    reconfiguration is under way. For a first line, the thread ends with
    no record, that report and, no valid frame having been seen, the
    no-device report. *)
Theorem malformed_line_ends_loop (airplanes : list (list string))
    (rtl_reconfigure : bool) (send_data_report : record -> bool)
    (line : list byte) (rest : list (list byte)) (st : thread_state) :
  line_malformed line ->
  exists e,
    process_line airplanes line = Raise e
    /\ rtl_lines airplanes send_data_report (line :: rest) st = (st, Raise e)
    /\ emitted (rtl_thread airplanes rtl_reconfigure send_data_report
                  (line :: rest)) = []
    /\ reports (rtl_thread airplanes rtl_reconfigure send_data_report
                  (line :: rest))
       = (if rtl_reconfigure then []
          else [UnableToProcess e; NoValidDevices]).
Proof.
  intros Hbad. destruct (process_line_malformed airplanes line Hbad) as [e He].
  exists e. split; [exact He|]. split; [by apply rtl_lines_raise|].
  unfold rtl_thread.
  rewrite (rtl_lines_raise _ _ _ _ _ _ He).
  by destruct rtl_reconfigure.
Qed.

Lemma malformed_line_ends_loop_witness :
  exists e,
    process_line [] line_bad_hex = Raise e
    /\ rtl_lines [] (fun _ => true) [line_bad_hex; line_klm] initial_state
       = (initial_state, Raise e)
    /\ emitted (rtl_thread [] false (fun _ => true) [line_bad_hex; line_klm])
       = []
    /\ reports (rtl_thread [] false (fun _ => true) [line_bad_hex; line_klm])
       = [UnableToProcess e; NoValidDevices].
Proof.
  apply (malformed_line_ends_loop [] false (fun _ => true) line_bad_hex
           [line_klm] initial_state).
  left. exists ValueError. vm_compute. reflexivity.
Defined.

(** C3 as stated fails: after the line ["*zz;"], whose hexadecimal decoding
    raises, the loop does not go on to the next line. The line
    [line_klm] alone gives a record; after ["*zz;"] it gives none, and the
    error is reported. *)
Lemma bad_hex_line_not_skipped :
  decode_line line_bad_hex = Raise ValueError
  /\ length (emitted (rtl_thread [] false (fun _ => true) [line_klm])) = 1%nat
  /\ emitted (rtl_thread [] false (fun _ => true) [line_bad_hex; line_klm])
     = []
  /\ reports (rtl_thread [] false (fun _ => true) [line_bad_hex; line_klm])
     = [UnableToProcess ValueError; NoValidDevices]
  /\ rtl_lines [] (fun _ => true) [line_bad_hex; line_klm] initial_state
     <> rtl_lines [] (fun _ => true) [line_klm] initial_state.
Proof.
  split; [by vm_compute|]. split; [by vm_compute|].
  split; [by vm_compute|]. split; [by vm_compute|].
  intros Heq. apply (f_equal (fun p => length (emitted (fst p)))) in Heq.
  vm_compute in Heq. discriminate Heq.
Qed.

(** *** Records of valid frames *)

Lemma base_record_icao (msg : list byte) :
  base_record msg !! "icao" = Some (VStr (hex (adsb_msg_get_icao msg))).
Proof. unfold base_record. by rewrite lookup_insert_eq. Qed.

Lemma base_record_dom (msg : list byte) : dom (base_record msg) = {[ "icao" ]}.
Proof. unfold base_record. rewrite dom_insert_L, dom_empty_L. set_solver. Qed.

Lemma icao_not_registry_key : "icao" ∉ registry_keys.
Proof. unfold registry_keys. set_solver. Qed.

Lemma icao_not_field_key : "icao" ∉ field_keys.
Proof. unfold field_keys. set_solver. Qed.

Lemma crc_valid_not_registry_key : "crc_valid" ∉ registry_keys.
Proof. unfold registry_keys. set_solver. Qed.

Lemma crc_valid_not_field_key : "crc_valid" ∉ field_keys.
Proof. unfold field_keys. set_solver. Qed.

(** C1, as amended: every record the loop emits holds the key [icao] (the
    hexadecimal text of bytes 1 to 3) and never a key [crc_valid], which the
    code does not write; and for a type-17 frame with a correct checksum
    whose ME type and sub-type match no extractor rule, with an aircraft
    table whose rows have their five columns, the dispatcher does not raise
    and emits a record whose keys are [icao] alone, or [icao] with the four
    registry keys when the address is in the table. *)
Theorem emitted_record_minimal_keys (airplanes : list (list string)) :
  (forall (line : list byte) (o : record),
     process_line airplanes line = Ok (Emit o) ->
     exists msg,
       decode_line line = Ok msg
       /\ o !! "icao" = Some (VStr (hex (adsb_msg_get_icao msg)))
       /\ o !! "crc_valid" = None)
  /\ (forall (msg : list byte) (msgme msgsubme : Z),
        registry_ok airplanes ->
        crc_valid msg 17 ->
        adsb_msg_get_me_subme msg = Ok (msgme, msgsubme) ->
        no_rule msgme msgsubme ->
        exists o,
          process_msg airplanes msg = Ok (Emit o)
          /\ o !! "icao" = Some (VStr (hex (adsb_msg_get_icao msg)))
          /\ (registry_match (hex (adsb_msg_get_icao msg)) airplanes ->
              dom o = {[ "icao" ]} ∪ registry_keys)
          /\ (~ registry_match (hex (adsb_msg_get_icao msg)) airplanes ->
              dom o = {[ "icao" ]})).
Proof.
  split.
  - intros line o Hp. unfold process_line in Hp.
    destruct (decode_line line) as [msg|] eqn:Hdec; [|done].
    cbn [mbind res_bind] in Hp.
    destruct (process_msg_emit_inv _ _ _ Hp) as (t & _ & Hd).
    exists msg. split; [done|]. split.
    + rewrite (dispatch_other_keys _ _ _ _ "icao" Hd
                 icao_not_registry_key icao_not_field_key).
      apply base_record_icao.
    + rewrite (dispatch_other_keys _ _ _ _ "crc_valid" Hd
                 crc_valid_not_registry_key crc_valid_not_field_key).
      unfold base_record. by rewrite lookup_insert_ne.
  - intros msg msgme msgsubme Hreg Hcrc Hme Hno.
    rewrite (process_msg_valid _ _ _ Hcrc).
    rewrite (dispatch_17_no_rule _ _ _ _ Hme Hno).
    destruct (for_each_registry_ok (hex (adsb_msg_get_icao msg)) airplanes
                Hreg (base_record msg)) as (o & Ho & Hyes & Hnot).
    exists o. rewrite Ho. split; [done|]. split; [|split].
    + rewrite (for_each_registry_other _ _ "icao" icao_not_registry_key
                 _ _ Ho).
      apply base_record_icao.
    + intros Hm. by rewrite (Hyes Hm), base_record_dom.
    + intros Hm. by rewrite (Hnot Hm), base_record_dom.
Qed.

Lemma emitted_record_minimal_keys_witness :
  (exists msg,
     decode_line line_klm = Ok msg
     /\ (<["callsign" := VStr "KLM1023"]>
           (<["operator" := VStr "OPERATOR"]>
              (<["type" := VStr "TYPE"]>
                 (<["mdl" := VStr "MODEL"]>
                    (<["regid" := VStr "REGID"]>
                       (<["icao" := VStr "4840d6"]> (∅ : record)))))))
        !! "icao" = Some (VStr (hex (adsb_msg_get_icao msg)))
     /\ (<["callsign" := VStr "KLM1023"]>
           (<["operator" := VStr "OPERATOR"]>
              (<["type" := VStr "TYPE"]>
                 (<["mdl" := VStr "MODEL"]>
                    (<["regid" := VStr "REGID"]>
                       (<["icao" := VStr "4840d6"]> (∅ : record)))))))
        !! "crc_valid" = None)
  /\ (exists o,
        process_msg sample_registry frame_no_rule = Ok (Emit o)
        /\ o !! "icao" = Some (VStr (hex (adsb_msg_get_icao frame_no_rule)))
        /\ (registry_match (hex (adsb_msg_get_icao frame_no_rule))
              sample_registry ->
            dom o = {[ "icao" ]} ∪ registry_keys)
        /\ (~ registry_match (hex (adsb_msg_get_icao frame_no_rule))
              sample_registry ->
            dom o = {[ "icao" ]})).
Proof.
  destruct (emitted_record_minimal_keys sample_registry) as [Hemit Hmin].
  split.
  - apply (Hemit line_klm). vm_compute. reflexivity.
  - apply (Hmin frame_no_rule 0 0).
    + unfold registry_ok, sample_registry.
      constructor; [simpl; lia|constructor].
    + split; [vm_compute; reflexivity|].
      exists 0xF1C715. split; vm_compute; reflexivity.
    + vm_compute. reflexivity.
    + unfold no_rule. lia.
Defined.

(** C1 as stated fails: the record of the valid type-17 frame [frame_klm]
    has no key [crc_valid], and the valid type-5 frame [frame_type5] gives
    no record at all. *)
Lemma emitted_record_lacks_crc_valid :
  crc_valid frame_klm 17
  /\ (exists o,
        process_line [] line_klm = Ok (Emit o)
        /\ o !! "icao" = Some (VStr "4840d6")
        /\ o !! "crc_valid" = None)
  /\ crc_valid frame_type5 5
  /\ decode_line line_type5 = Ok frame_type5
  /\ process_line [] line_type5 = Ok Silent
  /\ emitted (rtl_thread [] false (fun _ => true) [line_type5]) = [].
Proof.
  split.
  { split; [by vm_compute|]. exists 0x576098. split; by vm_compute. }
  split.
  { eexists. split; [vm_compute; reflexivity|]. split; by vm_compute. }
  split.
  { split; [by vm_compute|]. exists 0x29AB60. split; by vm_compute. }
  repeat split; by vm_compute.
Qed.

(** *** Frames of type 0, 4, 16 and 20 *)

(** The altitude branch for these types is the [elif] of the position test
    inside [if msgtype == 17], and [json.dumps] is inside that [if] as
    well: a valid frame of another type yields no record. *)
Lemma other_types_silent (airplanes : list (list string)) (msg : list byte)
    (msgtype : Z) :
  registry_ok airplanes ->
  crc_valid msg msgtype ->
  msgtype <> 17 ->
  process_msg airplanes msg = Ok Silent.
Proof.
  intros Hreg Hcrc Ht.
  rewrite (process_msg_valid _ _ _ Hcrc), (dispatch_not_17 _ _ _ Ht).
  destruct (for_each_registry_ok (hex (adsb_msg_get_icao msg)) airplanes
              Hreg (base_record msg)) as (o & -> & _).
  reflexivity.
Qed.

(** C2, the failing input: [frame_type4] has type 4 and a correct checksum,
    and the 13-bit altitude extractor returns a value on it, yet its line
    yields no record, with or without an aircraft table: the [altitude]
    field is never populated. *)
Theorem type4_frame_emits_nothing :
  decode_line line_type4 = Ok frame_type4
  /\ crc_valid frame_type4 4
  /\ (exists alt, adsb_msg_get_ac13_altitude frame_type4 = Ok alt)
  /\ process_line [] line_type4 = Ok Silent
  /\ process_line sample_registry line_type4 = Ok Silent
  /\ emitted (rtl_thread [] false (fun _ => true) [line_type4]) = [].
Proof.
  split; [by vm_compute|]. split.
  { split; [by vm_compute|]. exists 0x89B5F1. split; by vm_compute. }
  split; [eexists; by vm_compute|].
  repeat split; by vm_compute.
Qed.

(** *** The line [*8D4840D6202CC371C32CE0576098;] *)

Lemma klm_line_facts :
  decode_line line_klm = Ok frame_klm
  /\ crc_valid frame_klm 17
  /\ adsb_msg_get_me_subme frame_klm = Ok (4, 0)
  /\ adsb_msg_get_flight frame_klm = Ok "KLM1023"%string
  /\ hex (adsb_msg_get_icao frame_klm) = "4840d6"%string.
Proof.
  split; [by vm_compute|]. split.
  { split; [by vm_compute|]. exists 0x576098. split; by vm_compute. }
  repeat split; by vm_compute.
Qed.

(** C5, as amended: the line gives exactly one record; it holds [icao]
    ["4840d6"] and, the ME type of the frame being 4, [callsign]
    ["KLM1023"]; it has no key [crc_valid], [raw_lat], [raw_lon],
    [coordpair_even] or [altitude]. The aircraft table is any table whose
    rows have their five columns. *)
Theorem klm_line_record (airplanes : list (list string))
    (rtl_reconfigure : bool) (send_data_report : record -> bool) :
  registry_ok airplanes ->
  exists o,
    emitted (rtl_thread airplanes rtl_reconfigure send_data_report [line_klm])
    = [o]
    /\ o !! "icao" = Some (VStr "4840d6")
    /\ o !! "callsign" = Some (VStr "KLM1023")
    /\ o !! "crc_valid" = None
    /\ o !! "raw_lat" = None
    /\ o !! "raw_lon" = None
    /\ o !! "coordpair_even" = None
    /\ o !! "altitude" = None.
Proof.
  intros Hreg.
  destruct klm_line_facts as (Hdec & Hcrc & Hme & Hfl & Hicao).
  destruct (for_each_registry_ok (hex (adsb_msg_get_icao frame_klm))
              airplanes Hreg (base_record frame_klm)) as (out & Hout & _).
  assert (Hp : process_line airplanes line_klm
               = Ok (Emit (<["callsign" := VStr "KLM1023"]> out))).
  { unfold process_line. rewrite Hdec. cbn [mbind res_bind].
    rewrite (process_msg_valid _ _ _ Hcrc).
    rewrite (dispatch_17_callsign _ _ 4 0 "KLM1023" Hme ltac:(lia) Hfl).
    by rewrite Hout. }
  assert (Hk : forall k : string,
            k ∉ registry_keys -> out !! k = base_record frame_klm !! k).
  { intros k Hk. by apply (for_each_registry_other _ _ k Hk _ _ Hout). }
  exists (<["callsign" := VStr "KLM1023"]> out).
  split.
  { rewrite rtl_thread_emitted.
    by rewrite (rtl_lines_emit_last _ _ _ _ _ Hp). }
  split.
  { rewrite lookup_insert_ne by done.
    rewrite (Hk "icao" icao_not_registry_key), base_record_icao.
    by rewrite Hicao. }
  split; [by rewrite lookup_insert_eq|].
  unfold registry_keys in Hk. unfold base_record in Hk.
  repeat split; rewrite lookup_insert_ne by done;
    (rewrite Hk by set_solver); by rewrite lookup_insert_ne.
Qed.

Lemma klm_line_record_witness :
  exists o,
    emitted (rtl_thread sample_registry false (fun _ => true) [line_klm])
    = [o]
    /\ o !! "icao" = Some (VStr "4840d6")
    /\ o !! "callsign" = Some (VStr "KLM1023")
    /\ o !! "crc_valid" = None
    /\ o !! "raw_lat" = None
    /\ o !! "raw_lon" = None
    /\ o !! "coordpair_even" = None
    /\ o !! "altitude" = None.
Proof.
  apply (klm_line_record sample_registry false (fun _ => true)).
  unfold registry_ok, sample_registry.
  constructor; [simpl; lia|constructor].
Defined.

(** C5 as stated fails: the one record of the line has neither [raw_lat],
    [raw_lon], [coordpair_even] nor [crc_valid]; the position extractor is
    not called, the frame being an identification message. *)
Lemma klm_line_no_position :
  emitted (rtl_thread [] false (fun _ => true) [line_klm])
  = [<["callsign" := VStr "KLM1023"]>
       (<["icao" := VStr "4840d6"]> (∅ : record))]
  /\ (<["callsign" := VStr "KLM1023"]>
        (<["icao" := VStr "4840d6"]> (∅ : record))) !! "raw_lat" = None
  /\ (<["callsign" := VStr "KLM1023"]>
        (<["icao" := VStr "4840d6"]> (∅ : record))) !! "raw_lon" = None
  /\ (<["callsign" := VStr "KLM1023"]>
        (<["icao" := VStr "4840d6"]> (∅ : record))) !! "coordpair_even" = None
  /\ (<["callsign" := VStr "KLM1023"]>
        (<["icao" := VStr "4840d6"]> (∅ : record))) !! "crc_valid" = None.
Proof. repeat split; by vm_compute. Qed.

(** * Further properties of the extractors *)

Lemma shiftr_div (v k : Z) : 0 <= k -> Z.shiftr v k = v / 2 ^ k.
Proof. intros Hk. by apply Z.shiftr_div_pow2. Qed.

Lemma land_mod (v k : Z) : 0 <= k -> Z.land v (2 ^ k - 1) = v mod 2 ^ k.
Proof.
  intros Hk. rewrite <- Z.land_ones by done. f_equal.
  rewrite Z.ones_equiv. lia.
Qed.

Lemma frame_byte_range (data : list byte) (i : nat) :
  0 <= frame_byte data i < 256.
Proof.
  unfold frame_byte. destruct (data !! i) as [b|]; [|lia].
  apply byte_val_range.
Qed.

Lemma data_at_frame_byte (data : list byte) (n : nat) (i : Z) :
  i = Z.of_nat n -> (n < length data)%nat ->
  data_at data i = Ok (frame_byte data n).
Proof.
  intros -> Hi. destruct (lookup_lt_is_Some_2 data n Hi) as [b Hb].
  unfold frame_byte. rewrite Hb.
  apply data_at_lookup; [lia|]. by rewrite Nat2Z.id.
Qed.

Ltac frame_side := solve [reflexivity | lia].

(** X1: the message type and the flight status split byte 0: the type is
    its top five bits and the status its low three, so [8 * type + fs] is
    the byte, the type lies in [0, 32) and selects a frame of 56 or 112
    bits; on an empty buffer both extractors raise [IndexError]. *)
Theorem type_and_fs_split_byte_0 (b : byte) (rest : list byte) :
  (exists msgtype fs,
     adsb_msg_get_type (b :: rest) = Ok msgtype
     /\ adsb_msg_get_fs (b :: rest) = Ok fs
     /\ 0 <= msgtype < 32 /\ 0 <= fs < 8
     /\ 8 * msgtype + fs = byte_val b
     /\ (adsb_len_by_type msgtype = 56 \/ adsb_len_by_type msgtype = 112))
  /\ adsb_msg_get_type [] = Raise IndexError
  /\ adsb_msg_get_fs [] = Raise IndexError.
Proof.
  split; [|by split].
  exists (Z.shiftr (byte_val b) 3), (Z.land (byte_val b) 7).
  unfold adsb_msg_get_type, adsb_msg_get_fs.
  rewrite (data_at_lookup _ 0 b) by done. cbn [mbind res_bind].
  split; [done|]. split; [done|].
  pose proof (byte_val_range b) as Hb.
  rewrite shiftr_div by lia. change 7 with (2 ^ 3 - 1).
  rewrite land_mod by lia. change (2 ^ 3) with 8.
  split; [Z.div_mod_to_equations; lia|].
  split; [Z.div_mod_to_equations; lia|].
  split; [Z.div_mod_to_equations; lia|].
  apply adsb_len_by_type_cases.
Qed.

(** X2: on a buffer holding byte 4, the extended-squitter type and sub-type
    split that byte: [8 * metype + mesub] is the byte, with the type in
    [0, 32) and the sub-type in [0, 8); a buffer of four bytes or fewer
    raises [IndexError]. *)
Theorem me_subme_split_byte_4 (data : list byte) :
  ((5 <= length data)%nat ->
   exists msgme msgsubme,
     adsb_msg_get_me_subme data = Ok (msgme, msgsubme)
     /\ 0 <= msgme < 32 /\ 0 <= msgsubme < 8
     /\ 8 * msgme + msgsubme = frame_byte data 4)
  /\ ((length data <= 4)%nat ->
      adsb_msg_get_me_subme data = Raise IndexError).
Proof.
  split.
  - intros Hlen. unfold adsb_msg_get_me_subme.
    rewrite (data_at_frame_byte data 4 4) by frame_side.
    cbn [mbind res_bind].
    eexists _, _. split; [done|].
    pose proof (frame_byte_range data 4) as Hb.
    rewrite shiftr_div by lia. change 7 with (2 ^ 3 - 1).
    rewrite land_mod by lia. change (2 ^ 3) with 8.
    repeat split; Z.div_mod_to_equations; lia.
  - intros Hlen. unfold adsb_msg_get_me_subme.
    rewrite data_at_past_end by lia. done.
Qed.

Lemma me_subme_split_byte_4_witness :
  (exists msgme msgsubme,
     adsb_msg_get_me_subme frame_klm = Ok (msgme, msgsubme)
     /\ 0 <= msgme < 32 /\ 0 <= msgsubme < 8
     /\ 8 * msgme + msgsubme = frame_byte frame_klm 4)
  /\ adsb_msg_get_me_subme [Byte.x8d; Byte.x48] = Raise IndexError.
Proof.
  split.
  - apply (proj1 (me_subme_split_byte_4 frame_klm)). vm_compute. lia.
  - apply (proj2 (me_subme_split_byte_4 [Byte.x8d; Byte.x48])).
    vm_compute. lia.
Defined.

Lemma ac12_altitude_two_bytes (a b : byte) :
  adsb_msg_get_ac12_altitude
    [Byte.x00; Byte.x00; Byte.x00; Byte.x00; Byte.x00; a; b]
  = Ok (let data := [Byte.x00; Byte.x00; Byte.x00; Byte.x00; Byte.x00; a; b] in
        if ac12_q_bit data then spec_ac12_n data * 25 - 1000 else 0).
Proof. revert a b. by_all_bytes. Qed.

Lemma ac12_n_range (a b : byte) :
  0 <= spec_ac12_n [Byte.x00; Byte.x00; Byte.x00; Byte.x00; Byte.x00; a; b]
    < 2048.
Proof. revert a b. by_all_bytes. Qed.

(** X3: on a buffer holding bytes 5 and 6, the 12-bit altitude extractor
    returns [n * 25 - 1000] when the Q bit (the last bit of byte 5) is set,
    [n] being the 11-bit integer spelled by the field (byte 5 and the high
    half of byte 6) without its Q bit, and 0 when the Q bit is clear; the
    result lies between -1000 and 50175 feet. *)
Theorem adsb_msg_get_ac12_altitude_decodes (data : list byte) :
  (7 <= length data)%nat ->
  adsb_msg_get_ac12_altitude data
  = Ok (if ac12_q_bit data then spec_ac12_n data * 25 - 1000 else 0)
  /\ 0 <= spec_ac12_n data < 2048
  /\ (forall alt, adsb_msg_get_ac12_altitude data = Ok alt ->
        -1000 <= alt <= 50175).
Proof.
  intros Hlen.
  do 7 (destruct data as [|? data]; [simpl in Hlen; lia|]).
  assert (Heq : adsb_msg_get_ac12_altitude
                  (b :: b0 :: b1 :: b2 :: b3 :: b4 :: b5 :: data)
                = Ok (if ac12_q_bit
                           (b :: b0 :: b1 :: b2 :: b3 :: b4 :: b5 :: data)
                      then spec_ac12_n
                             (b :: b0 :: b1 :: b2 :: b3 :: b4 :: b5 :: data)
                           * 25 - 1000
                      else 0)).
  { transitivity (adsb_msg_get_ac12_altitude
                    [Byte.x00; Byte.x00; Byte.x00; Byte.x00; Byte.x00; b4; b5]).
    - unfold adsb_msg_get_ac12_altitude.
      by rewrite !(data_at_lookup _ 5 b4), !(data_at_lookup _ 6 b5).
    - rewrite ac12_altitude_two_bytes. reflexivity. }
  assert (Hn : 0 <= spec_ac12_n (b :: b0 :: b1 :: b2 :: b3 :: b4 :: b5 :: data)
               < 2048) by apply (ac12_n_range b4 b5).
  split; [exact Heq|]. split; [exact Hn|].
  intros alt Halt. rewrite Heq in Halt. inversion Halt as [Ha].
  destruct (ac12_q_bit _); lia.
Qed.

Lemma adsb_msg_get_ac12_altitude_decodes_witness :
  adsb_msg_get_ac12_altitude frame_klm
  = Ok (if ac12_q_bit frame_klm then spec_ac12_n frame_klm * 25 - 1000 else 0)
  /\ 0 <= spec_ac12_n frame_klm < 2048
  /\ (forall alt, adsb_msg_get_ac12_altitude frame_klm = Ok alt ->
        -1000 <= alt <= 50175).
Proof.
  apply (adsb_msg_get_ac12_altitude_decodes frame_klm). vm_compute. lia.
Defined.

(** X4: the 12-bit altitude extractor reads byte 6 only when the Q bit is
    set: a buffer that ends after byte 5 gives 0 when the Q bit is clear
    and raises [IndexError] when it is set. *)
Theorem adsb_msg_get_ac12_altitude_six_bytes (data : list byte) :
  length data = 6%nat ->
  adsb_msg_get_ac12_altitude data
  = if ac12_q_bit data then Raise IndexError else Ok 0.
Proof.
  intros Hlen.
  do 6 (destruct data as [|? data]; [simpl in Hlen; lia|]).
  destruct data; [|simpl in Hlen; lia].
  unfold adsb_msg_get_ac12_altitude, ac12_q_bit.
  rewrite (data_at_lookup _ 5 b4) by done. cbn [mbind res_bind].
  change (frame_byte [b; b0; b1; b2; b3; b4] 5) with (byte_val b4).
  change 1 with (Z.shiftl 1 0) at 1. rewrite land_pow2_eqb by lia.
  rewrite negb_involutive.
  destruct (Z.testbit (byte_val b4) 0); [|done].
  by rewrite data_at_past_end by (simpl; lia).
Qed.

Lemma adsb_msg_get_ac12_altitude_six_bytes_witness :
  adsb_msg_get_ac12_altitude (take 6 frame_klm)
  = if ac12_q_bit (take 6 frame_klm) then Raise IndexError else Ok 0.
Proof.
  apply (adsb_msg_get_ac12_altitude_six_bytes (take 6 frame_klm)).
  reflexivity.
Defined.

Lemma lor3_sum (x y z k1 k2 : Z) :
  0 <= k2 <= k1 -> 0 <= y -> y * 2 ^ k2 < 2 ^ k1 -> 0 <= z < 2 ^ k2 ->
  Z.lor (Z.lor (x * 2 ^ k1) (y * 2 ^ k2)) z = x * 2 ^ k1 + y * 2 ^ k2 + z.
Proof.
  intros Hk Hy Hy2 Hz.
  rewrite (lor_add_disjoint x (y * 2 ^ k2) k1) by nia.
  replace (x * 2 ^ k1 + y * 2 ^ k2)
    with ((x * 2 ^ (k1 - k2) + y) * 2 ^ k2).
  - apply lor_add_disjoint; lia.
  - rewrite Z.mul_add_distr_r, <- Z.mul_assoc, <- Z.pow_add_r by lia.
    do 3 f_equal. lia.
Qed.

(** X5: on a buffer holding bytes 6 to 10, the airborne-position extractor
    returns the parity flag (bit 2 of byte 6), the raw latitude (the 17
    bits of bytes 6 to 8 that end one bit before the end of byte 8) and the
    raw longitude (the last 17 bits of bytes 8 to 10); both raw values lie
    in [0, 2^17). *)
Theorem adsb_msg_get_airborne_position_fields (data : list byte) :
  (11 <= length data)%nat ->
  exists paireven lat lon,
    adsb_msg_get_airborne_position data = Ok (paireven, lat, lon)
    /\ paireven = Z.testbit (frame_byte data 6) 2
    /\ lat = (frame_be24 data 6 / 2) mod 2 ^ 17
    /\ lon = frame_be24 data 8 mod 2 ^ 17
    /\ 0 <= lat < 2 ^ 17 /\ 0 <= lon < 2 ^ 17.
Proof.
  intros Hlen. unfold adsb_msg_get_airborne_position.
  rewrite (data_at_frame_byte data 6 6), (data_at_frame_byte data 7 7),
    (data_at_frame_byte data 8 8), (data_at_frame_byte data 9 9),
    (data_at_frame_byte data 10 10) by frame_side.
  cbn [mbind res_bind]. eexists _, _, _. split; [reflexivity|].
  pose proof (frame_byte_range data 6) as H6.
  pose proof (frame_byte_range data 7) as H7.
  pose proof (frame_byte_range data 8) as H8.
  pose proof (frame_byte_range data 9) as H9.
  pose proof (frame_byte_range data 10) as H10.
  assert (Hlat : Z.lor (Z.lor (Z.shiftl (Z.land (frame_byte data 6) 3) 15)
                          (Z.shiftl (frame_byte data 7) 7))
                   (Z.shiftr (frame_byte data 8) 1)
                 = (frame_be24 data 6 / 2) mod 2 ^ 17).
  { rewrite !Z.shiftl_mul_pow2, shiftr_div by lia.
    change 3 with (2 ^ 2 - 1). rewrite land_mod by lia.
    rewrite lor3_sum; unfold frame_be24; simpl (_ + _)%nat;
      change (2 ^ 17) with 131072; change (2 ^ 15) with 32768;
      change (2 ^ 7) with 128; change (2 ^ 2) with 4; change (2 ^ 1) with 2;
      Z.div_mod_to_equations; lia. }
  assert (Hlon : Z.lor (Z.lor (Z.shiftl (Z.land (frame_byte data 8) 1) 16)
                          (Z.shiftl (frame_byte data 9) 8))
                   (frame_byte data 10)
                 = frame_be24 data 8 mod 2 ^ 17).
  { rewrite !Z.shiftl_mul_pow2 by lia.
    change 1 with (2 ^ 1 - 1) at 1. rewrite land_mod by lia.
    rewrite lor3_sum; unfold frame_be24; simpl (_ + _)%nat;
      change (2 ^ 17) with 131072; change (2 ^ 16) with 65536;
      change (2 ^ 8) with 256; change (2 ^ 1) with 2;
      Z.div_mod_to_equations; lia. }
  split; [by rewrite land_pow2_eqb, negb_involutive by lia|].
  split; [exact Hlat|]. split; [exact Hlon|].
  rewrite Hlat, Hlon. split; apply Z.mod_pos_bound; lia.
Qed.

Lemma adsb_msg_get_airborne_position_fields_witness :
  exists paireven lat lon,
    adsb_msg_get_airborne_position frame_klm = Ok (paireven, lat, lon)
    /\ paireven = Z.testbit (frame_byte frame_klm 6) 2
    /\ lat = (frame_be24 frame_klm 6 / 2) mod 2 ^ 17
    /\ lon = frame_be24 frame_klm 8 mod 2 ^ 17
    /\ 0 <= lat < 2 ^ 17 /\ 0 <= lon < 2 ^ 17.
Proof.
  apply (adsb_msg_get_airborne_position_fields frame_klm). vm_compute. lia.
Defined.

Lemma frame_byte_is_byte (data : list byte) (i : nat) :
  exists b, frame_byte data i = byte_val b.
Proof.
  unfold frame_byte. destruct (data !! i) as [b|]; [by exists b|].
  by exists Byte.x00.
Qed.

Lemma ew_velocity_bytes (a b : byte) :
  Z.lor (Z.shiftl (Z.land (byte_val a) 3) 8) (byte_val b)
  = (byte_val a * 256 + byte_val b) mod 1024.
Proof. revert a b. by_all_bytes. Qed.

Lemma ns_velocity_bytes (a b : byte) :
  Z.lor (Z.shiftl (Z.land (byte_val a) 0x7f) 3)
    (Z.shiftr (Z.land (byte_val b) 0xe0) 5)
  = ((byte_val a * 256 + byte_val b) / 32) mod 1024.
Proof. revert a b. by_all_bytes. Qed.

Lemma ew_dir_bit (a : byte) :
  negb (Z.shiftr (Z.land (byte_val a) 4) 2 =? 0) = Z.testbit (byte_val a) 2.
Proof. revert a. by_all_bytes. Qed.

Lemma ns_dir_bit (a : byte) :
  negb (Z.shiftr (Z.land (byte_val a) 0x80) 7 =? 0)
  = Z.testbit (byte_val a) 7.
Proof. revert a. by_all_bytes. Qed.




Lemma heading_of_north (n : positive) : heading_of 0 (Z.pos n) = 0%R.
Proof.
  unfold heading_of, atan2.
  assert (Hn : (0 < IZR (Z.pos n))%R) by (apply IZR_lt; lia).
  destruct (Rlt_dec 0 (IZR (Z.pos n))) as [_|?]; [|lra].
  replace (0 / IZR (Z.pos n))%R with 0%R by (field; lra).
  rewrite atan_0. replace (0 * 360 / (PI * 2))%R with 0%R
    by (field; pose proof PI_RGT_0; lra).
  destruct (Rlt_dec 0 0); [lra|done].
Qed.

Lemma heading_of_south (n : positive) : heading_of 0 (Z.neg n) = 180%R.
Proof.
  unfold heading_of, atan2. pose proof PI_RGT_0 as Hpi.
  assert (Hn : (IZR (Z.neg n) < 0)%R) by (apply IZR_lt; lia).
  destruct (Rlt_dec 0 (IZR (Z.neg n))) as [?|_]; [lra|].
  destruct (Rlt_dec (IZR (Z.neg n)) 0) as [_|?]; [|lra].
  destruct (Rle_dec 0 0) as [_|?]; [|lra].
  replace (0 / IZR (Z.neg n))%R with 0%R by (field; lra).
  rewrite atan_0.
  replace ((0 + PI) * 360 / (PI * 2))%R with 180%R by (field; lra).
  destruct (Rlt_dec 180 0); [lra|done].
Qed.

Lemma heading_of_east (n : positive) : heading_of (Z.pos n) 0 = 90%R.
Proof.
  unfold heading_of, atan2. pose proof PI_RGT_0 as Hpi.
  assert (Hn : (0 < IZR (Z.pos n))%R) by (apply IZR_lt; lia).
  destruct (Rlt_dec 0 0) as [?|_]; [lra|].
  destruct (Rlt_dec 0 (IZR (Z.pos n))) as [_|?]; [|lra].
  replace (PI / 2 * 360 / (PI * 2))%R with 90%R by (field; lra).
  destruct (Rlt_dec 90 0); [lra|done].
Qed.

Lemma heading_of_west (n : positive) : heading_of (Z.neg n) 0 = 270%R.
Proof.
  unfold heading_of, atan2. pose proof PI_RGT_0 as Hpi.
  assert (Hn : (IZR (Z.neg n) < 0)%R) by (apply IZR_lt; lia).
  destruct (Rlt_dec 0 0) as [?|_]; [lra|].
  destruct (Rlt_dec 0 (IZR (Z.neg n))) as [?|_]; [lra|].
  destruct (Rlt_dec (IZR (Z.neg n)) 0) as [_|?]; [|lra].
  replace (- (PI / 2) * 360 / (PI * 2))%R with (-90)%R by (field; lra).
  destruct (Rlt_dec (-90) 0); [lra|lra].
Qed.

Lemma heading_of_zero : heading_of 0 0 = 0%R.
Proof.
  unfold heading_of, atan2. pose proof PI_RGT_0 as Hpi.
  destruct (Rlt_dec 0 0) as [?|_]; [lra|].
  replace (0 * 360 / (PI * 2))%R with 0%R by (field; lra).
  destruct (Rlt_dec 0 0); [lra|done].
Qed.

(** X7: on a buffer holding bytes 5 to 8, the heading extractor returns the
    direction of the vector whose components are the two magnitudes, taken
    negative when the west bit (bit 2 of byte 5) or the south bit (bit 7 of
    byte 7) is set; that direction is 0 for due north and for a null
    vector, 90 for due east, 180 for due south and 270 for due west. *)
Theorem adsb_msg_get_airborne_heading_direction (data : list byte) :
  (9 <= length data)%nat ->
  adsb_msg_get_airborne_heading data
  = Ok (heading_of (signed_ew data) (signed_ns data))
  /\ heading_of 0 0 = 0%R
  /\ (forall n : positive,
        heading_of 0 (Z.pos n) = 0%R
        /\ heading_of (Z.pos n) 0 = 90%R
        /\ heading_of 0 (Z.neg n) = 180%R
        /\ heading_of (Z.neg n) 0 = 270%R).
Proof.
  intros Hlen. split.
  - unfold adsb_msg_get_airborne_heading.
    rewrite (data_at_frame_byte data 5 5), (data_at_frame_byte data 6 6),
      (data_at_frame_byte data 7 7), (data_at_frame_byte data 8 8)
      by frame_side.
    cbn [mbind res_bind].
    unfold heading_of, signed_ew, signed_ns, ew_west, ns_south,
      ew_magnitude, ns_magnitude.
    destruct (frame_byte_is_byte data 5) as [b5 ->].
    destruct (frame_byte_is_byte data 6) as [b6 ->].
    destruct (frame_byte_is_byte data 7) as [b7 ->].
    destruct (frame_byte_is_byte data 8) as [b8 ->].
    rewrite ew_velocity_bytes, ns_velocity_bytes, ew_dir_bit, ns_dir_bit.
    assert (Hm1 : forall x : Z, x * -1 = - x) by (intros; lia).
    rewrite !Hm1. reflexivity.
  - split; [apply heading_of_zero|]. intros n.
    split; [apply heading_of_north|]. split; [apply heading_of_east|].
    split; [apply heading_of_south|apply heading_of_west].
Qed.

Lemma adsb_msg_get_airborne_heading_direction_witness :
  adsb_msg_get_airborne_heading frame_klm
  = Ok (heading_of (signed_ew frame_klm) (signed_ns frame_klm))
  /\ heading_of 0 0 = 0%R
  /\ (forall n : positive,
        heading_of 0 (Z.pos n) = 0%R
        /\ heading_of (Z.pos n) 0 = 90%R
        /\ heading_of 0 (Z.neg n) = 180%R
        /\ heading_of (Z.neg n) 0 = 270%R).
Proof.
  apply (adsb_msg_get_airborne_heading_direction frame_klm).
  vm_compute. lia.
Defined.

(** * Further properties of the text layer *)

Lemma byte_val_inj (a b : byte) : byte_val a = byte_val b -> a = b.
Proof.
  intros H. rewrite <- (byte_of_Z_val a), <- (byte_of_Z_val b). by rewrite H.
Qed.

Lemma hex_byte_round_trip (b : byte) :
  let c1 := N_of_ascii (hex_char (Z.shiftr (byte_val b) 4)) in
  let c2 := N_of_ascii (hex_char (Z.land (byte_val b) 15)) in
  (c1 <? 128)%N = true /\ (c2 <? 128)%N = true
  /\ hex_isspace c1 = false
  /\ (exists top bot,
        hex_digit_value c1 = Some top /\ hex_digit_value c2 = Some bot
        /\ byte_val (byte_of_Z (Z.shiftl top 4 + bot)) = byte_val b)
  /\ is_lower_hex (hex_char (Z.shiftr (byte_val b) 4))
  /\ is_lower_hex (hex_char (Z.land (byte_val b) 15)).
Proof.
  destruct b; vm_compute; (repeat split; try reflexivity);
    try (eexists _, _; repeat split; reflexivity); tauto.
Qed.

Lemma fromhex_pairs_hex (bs : list byte) :
  fromhex_pairs (codepoints (hex bs)) = Ok bs
  /\ forallb (fun c => c <? 128)%N (codepoints (hex bs)) = true.
Proof.
  unfold codepoints, hex. rewrite list_ascii_of_string_of_list_ascii.
  induction bs as [|b bs [IH1 IH2]]; [done|].
  destruct (hex_byte_round_trip b)
    as (H1 & H2 & Hsp & (top & bot & Ht & Hb & Hv) & _).
  cbn [flat_map app map fromhex_pairs forallb].
  rewrite Hsp, Ht, Hb, IH1, H1, H2, IH2.
  split; [|done]. cbn [fmap res_fmap]. by rewrite (byte_val_inj _ _ Hv).
Qed.

Lemma fromhex_hex (bs : list byte) : fromhex (codepoints (hex bs)) = Ok bs.
Proof.
  unfold fromhex. destruct (fromhex_pairs_hex bs) as [H1 H2].
  by rewrite H2.
Qed.

Lemma hex_length (bs : list byte) :
  String.length (hex bs) = (2 * length bs)%nat.
Proof.
  unfold hex. induction bs as [|b bs IH]; [done|].
  cbn [flat_map app string_of_list_ascii String.length length].
  rewrite IH. lia.
Qed.

Lemma hex_lower (bs : list byte) :
  Forall is_lower_hex (list_ascii_of_string (hex bs)).
Proof.
  unfold hex. rewrite list_ascii_of_string_of_list_ascii.
  induction bs as [|b bs IH]; [constructor|].
  destruct (hex_byte_round_trip b) as (_ & _ & _ & _ & Hl1 & Hl2).
  cbn [flat_map app]. constructor; [exact Hl1|].
  constructor; [exact Hl2|exact IH].
Qed.

(** X8: for a buffer of at least four bytes, the ICAO text of a record,
    [adsb_msg_get_icao(msg).hex()], has exactly six characters, all of them
    lowercase hexadecimal digits, and [bytearray.fromhex] maps it back to
    bytes 1 to 3 of the buffer. *)
Theorem icao_text_round_trip (data : list byte) :
  (4 <= length data)%nat ->
  String.length (hex (adsb_msg_get_icao data)) = 6%nat
  /\ Forall is_lower_hex (list_ascii_of_string (hex (adsb_msg_get_icao data)))
  /\ fromhex (codepoints (hex (adsb_msg_get_icao data)))
     = Ok (take 3 (drop 1 data)).
Proof.
  intros Hlen. split; [|split].
  - rewrite hex_length. unfold adsb_msg_get_icao.
    rewrite length_take, length_drop. lia.
  - apply hex_lower.
  - apply fromhex_hex.
Qed.

Lemma icao_text_round_trip_witness :
  String.length (hex (adsb_msg_get_icao frame_klm)) = 6%nat
  /\ Forall is_lower_hex
       (list_ascii_of_string (hex (adsb_msg_get_icao frame_klm)))
  /\ fromhex (codepoints (hex (adsb_msg_get_icao frame_klm)))
     = Ok (take 3 (drop 1 frame_klm)).
Proof.
  apply (icao_text_round_trip frame_klm). vm_compute. lia.
Defined.

Lemma byte_code_of_ascii (c : ascii) :
  byte_code (Ascii.byte_of_ascii c) = N_of_ascii c.
Proof. by destruct c as [[] [] [] [] [] [] [] []]. Qed.

Lemma byte_codes_of_string (s : string) :
  map byte_code (bytes_of_string s) = codepoints s.
Proof.
  unfold bytes_of_string, codepoints. rewrite map_map.
  apply map_ext. intros c. apply byte_code_of_ascii.
Qed.

Lemma byte_code_small (b : byte) :
  (byte_code b <? 128)%N = true -> byte_val b < 128.
Proof.
  unfold byte_code. intros H. apply N.ltb_lt in H.
  pose proof (byte_val_range b). lia.
Qed.

Lemma forallb_codes_ascii (l : list byte) :
  forallb (fun c => c <? 128)%N (map byte_code l) = true ->
  Forall (fun b => byte_val b < 128) l.
Proof.
  induction l as [|b l IH]; [constructor|].
  cbn [map forallb]. intros H. apply andb_true_iff in H as [Hb Hl].
  constructor; [by apply byte_code_small|by apply IH].
Qed.

Lemma utf8_decode_ascii (l : list byte) :
  Forall (fun b => byte_val b < 128) l ->
  utf8_decode l = Ok (map byte_code l).
Proof.
  induction 1 as [|b l Hb _ IH]; [done|].
  cbn [utf8_decode map]. destruct (Z.ltb_spec (byte_val b) 128); [|lia].
  by rewrite IH.
Qed.

Lemma lstrip_blanks {A : Type} (sp : A -> bool) (ws : list A) (x : A)
    (l : list A) :
  Forall (fun w => sp w = true) ws -> sp x = false ->
  lstrip sp (ws ++ x :: l) = x :: l.
Proof.
  intros Hws Hx. induction Hws as [|w ws Hw _ IH].
  - simpl. by rewrite Hx.
  - simpl. by rewrite Hw.
Qed.

Lemma strip_between {A : Type} (sp : A -> bool) (ws1 ws2 mid : list A)
    (a z : A) :
  Forall (fun w => sp w = true) ws1 -> Forall (fun w => sp w = true) ws2 ->
  sp a = false -> sp z = false ->
  strip sp (ws1 ++ [a] ++ mid ++ [z] ++ ws2) = [a] ++ mid ++ [z].
Proof.
  intros H1 H2 Ha Hz. unfold strip, rstrip.
  change ([a] ++ mid ++ [z] ++ ws2) with (a :: (mid ++ [z] ++ ws2)).
  rewrite (lstrip_blanks sp ws1 a _ H1 Ha).
  replace (rev (a :: mid ++ [z] ++ ws2))
    with (rev ws2 ++ z :: rev (a :: mid)).
  - rewrite lstrip_blanks; [|by apply Forall_rev|done].
    change (z :: rev (a :: mid)) with (rev [z] ++ rev (a :: mid)).
    rewrite <- rev_app_distr, rev_involutive. done.
  - change (a :: mid ++ [z] ++ ws2) with ((a :: mid) ++ [z] ++ ws2).
    rewrite !rev_app_distr. simpl. by rewrite <- !app_assoc.
Qed.

Lemma slice_between {A : Type} (a z : A) (mid : list A) :
  slice_1_m1 ([a] ++ mid ++ [z]) = mid.
Proof. unfold slice_1_m1. simpl. apply removelast_last. Qed.

(** X9: the ingestion loop's line decoding is the inverse of writing a
    frame as lowercase hexadecimal between two marks: whatever the two
    marks are (any ASCII characters that are not white space; they are not
    compared with ['*'] and [';']) and whatever ASCII white space surrounds
    the line, [decode_line] returns the bytes of the frame. *)
Theorem decode_line_round_trip (bs ws1 ws2 : list byte) (a z : byte) :
  ascii_mark a -> ascii_mark z ->
  Forall ascii_blank ws1 -> Forall ascii_blank ws2 ->
  decode_line (ws1 ++ [a] ++ bytes_of_string (hex bs) ++ [z] ++ ws2) = Ok bs.
Proof.
  intros [Ha1 Ha2] [Hz1 Hz2] Hws1 Hws2. unfold decode_line.
  destruct (fromhex_pairs_hex bs) as [_ Hascii].
  rewrite <- byte_codes_of_string in Hascii.
  apply forallb_codes_ascii in Hascii.
  rewrite utf8_decode_ascii.
  - cbn [mbind res_bind]. rewrite !map_app. cbn [map].
    rewrite strip_between; try done.
    + rewrite slice_between, byte_codes_of_string. apply fromhex_hex.
    + apply Forall_map. eapply Forall_impl; [exact Hws1|]. by intros w [_ ?].
    + apply Forall_map. eapply Forall_impl; [exact Hws2|]. by intros w [_ ?].
  - repeat (apply Forall_app; split).
    + eapply Forall_impl; [exact Hws1|]. by intros w [? _].
    + by constructor.
    + exact Hascii.
    + by constructor.
    + eapply Forall_impl; [exact Hws2|]. by intros w [? _].
Qed.

Lemma decode_line_round_trip_witness :
  decode_line ([] ++ [Byte.x2a] ++ bytes_of_string (hex frame_klm)
               ++ [Byte.x3b] ++ [Byte.x0a])
  = Ok frame_klm.
Proof.
  apply (decode_line_round_trip frame_klm [] [Byte.x0a] Byte.x2a Byte.x3b).
  - split; [vm_compute; reflexivity|reflexivity].
  - split; [vm_compute; reflexivity|reflexivity].
  - constructor.
  - constructor; [|constructor].
    split; [vm_compute; reflexivity|reflexivity].
Defined.

(** * Further properties of the checksum *)

Lemma byte_val_of_Z (z : Z) : 0 <= z < 256 -> byte_val (byte_of_Z z) = z.
Proof.
  intros Hz. unfold byte_of_Z, byte_val.
  destruct (Byte.of_N (Z.to_N z)) as [b|] eqn:Hb.
  - simpl. apply Byte.to_of_N in Hb. rewrite Hb. lia.
  - apply Byte.of_N_None_iff in Hb. lia.
Qed.

Lemma adsb_crc_fold (data : list byte) (bits : Z) :
  bits = 56 \/ bits = 112 ->
  bits / 8 <= Z.of_nat (length data) ->
  adsb_crc data bits = Ok (spec_compute_crc data bits).
Proof.
  intros Hbits Hlen.
  set (offset := if negb (bits =? 112) then 112 - 56 else 0).
  assert (Hoff : 0 <= offset /\ bits + offset <= 112).
  { destruct Hbits; subst bits offset; simpl; lia. }
  destruct (adsb_crc_loop_fold data bits offset) as (log & Hrun);
    try done; try lia.
  unfold adsb_crc, adsb_crc_run. fold offset. rewrite Hrun. simpl.
  unfold spec_compute_crc.
  replace (if bits =? 112 then 0 else 56) with offset
    by (destruct Hbits; by subst bits offset).
  reflexivity.
Qed.

Lemma table_tail_zero (i : Z) : 88 <= i < 112 -> table_entry i = 0.
Proof.
  intros Hi.
  assert (Hall : forallb (fun i => table_entry i =? 0) (seqZ 88 24) = true)
    by (by vm_compute).
  rewrite forallb_forall in Hall. apply Z.eqb_eq, Hall.
  apply list_elem_of_In, elem_of_seqZ. lia.
Qed.

Lemma fold_left_ext_in {A B : Type} (f g : A -> B -> A) (l : list B) :
  (forall x, In x l -> forall acc, f acc x = g acc x) ->
  forall acc, fold_left f l acc = fold_left g l acc.
Proof.
  induction l as [|x l IH]; intros Hfg acc; [done|]. simpl.
  rewrite (Hfg x) by (by left). apply IH. intros y Hy. apply Hfg. by right.
Qed.

Lemma frame_bit_payload (payload t : list byte) (j : Z) :
  0 <= j -> j / 8 < Z.of_nat (length payload) ->
  frame_bit (payload ++ t) j = frame_bit payload j.
Proof.
  intros Hj Hlt. unfold frame_bit.
  assert (0 <= j / 8) by (apply Z.div_pos; lia).
  rewrite lookup_app_l by lia. done.
Qed.

(** The checksum of a frame is computed from its payload alone. *)
Lemma spec_compute_crc_payload (payload t1 t2 : list byte) (bits : Z) :
  bits = 56 \/ bits = 112 ->
  Z.of_nat (length payload) = bits / 8 - 3 ->
  spec_compute_crc (payload ++ t1) bits = spec_compute_crc (payload ++ t2) bits.
Proof.
  intros Hbits Hlen. unfold spec_compute_crc. f_equal.
  apply fold_left_ext_in. intros j Hj acc.
  apply list_elem_of_In, elem_of_seqZ in Hj.
  destruct (Z.lt_ge_cases j (bits - 24)) as [Hlt|Hge].
  - rewrite !frame_bit_payload; try lia; try done;
      destruct Hbits; subst bits; Z.div_mod_to_equations; lia.
  - rewrite table_tail_zero, Z.lxor_0_r.
    + by destruct (frame_bit _ j), (frame_bit _ j).
    + destruct Hbits; subst bits; simpl; lia.
Qed.

Lemma adsb_crc_ignores_trailer_aux (payload t1 t2 : list byte) (bits : Z) :
  bits = 56 \/ bits = 112 ->
  Z.of_nat (length payload) = bits / 8 - 3 ->
  length t1 = 3%nat -> length t2 = 3%nat ->
  adsb_crc (payload ++ t1) bits = adsb_crc (payload ++ t2) bits.
Proof.
  intros Hbits Hlen H1 H2.
  rewrite !adsb_crc_fold; try done; try (rewrite length_app; lia).
  f_equal. by apply spec_compute_crc_payload.
Qed.

(** X10: the computed checksum of a frame does not depend on its last
    three bytes, the place of the embedded checksum: two buffers with the
    same payload ([bits/8 - 3] bytes) and any three-byte endings have the
    same [adsb_crc]. *)
Theorem adsb_crc_ignores_trailer (payload t1 t2 : list byte) (bits : Z) :
  bits = 56 \/ bits = 112 ->
  Z.of_nat (length payload) = bits / 8 - 3 ->
  length t1 = 3%nat -> length t2 = 3%nat ->
  adsb_crc (payload ++ t1) bits = adsb_crc (payload ++ t2) bits.
Proof.
  intros Hbits Hlen H1 H2. by apply adsb_crc_ignores_trailer_aux.
Qed.

Lemma adsb_crc_ignores_trailer_witness :
  adsb_crc (take 11 frame_klm ++ [Byte.x57; Byte.x60; Byte.x98]) 112
  = adsb_crc (take 11 frame_klm ++ [Byte.x00; Byte.x00; Byte.x00]) 112.
Proof.
  apply (adsb_crc_ignores_trailer (take 11 frame_klm)
           [Byte.x57; Byte.x60; Byte.x98] [Byte.x00; Byte.x00; Byte.x00] 112).
  - right. reflexivity.
  - reflexivity.
  - reflexivity.
  - reflexivity.
Defined.

Lemma adsb_crc_range (data : list byte) (bits crc : Z) :
  adsb_crc data bits = Ok crc -> 0 <= crc < 2 ^ 24.
Proof.
  unfold adsb_crc, adsb_crc_run. intros H.
  destruct (for_range _ _ _ _) as [[c log]|]; [|done].
  inversion H. apply land_24_range.
Qed.

Lemma adsb_msg_get_crc_trailer (payload : list byte) (bits : Z)
    (a b c : byte) :
  bits = 56 \/ bits = 112 ->
  Z.of_nat (length payload) = bits / 8 - 3 ->
  adsb_msg_get_crc (payload ++ [a; b; c]) bits
  = Ok (byte_val a * 65536 + byte_val b * 256 + byte_val c).
Proof.
  intros Hbits Hlen.
  assert (Hq : Z.quot bits 8 = bits / 8 /\ 3 <= bits / 8).
  { destruct Hbits; subst bits; split; by vm_compute. }
  destruct Hq as [Hq Hq3].
  rewrite (adsb_msg_get_crc_at _ bits a b c).
  - rewrite big_endian_24. f_equal. lia.
  - lia.
  - rewrite Hq, lookup_app_r by lia.
    by replace (Z.to_nat (bits / 8 - 3) - length payload)%nat with 0%nat
      by lia.
  - rewrite Hq, lookup_app_r by lia.
    by replace (Z.to_nat (bits / 8 - 2) - length payload)%nat with 1%nat
      by lia.
  - rewrite Hq, lookup_app_r by lia.
    by replace (Z.to_nat (bits / 8 - 1) - length payload)%nat with 2%nat
      by lia.
Qed.

Lemma crc_bytes_value (crc : Z) :
  0 <= crc < 2 ^ 24 ->
  exists a b c,
    crc_bytes crc = [a; b; c]
    /\ byte_val a * 65536 + byte_val b * 256 + byte_val c = crc.
Proof.
  intros Hc. eexists _, _, _. split; [reflexivity|].
  change 255 with (2 ^ 8 - 1). rewrite !land_mod, !shiftr_div by lia.
  change (2 ^ 24) with 16777216 in Hc. change (2 ^ 16) with 65536.
  change (2 ^ 8) with 256.
  rewrite !byte_val_of_Z; Z.div_mod_to_equations; lia.
Qed.

(** X11: for each payload there is exactly one valid ending. Given a
    payload of [bits/8 - 3] bytes whose type announces [bits] bits, and the
    checksum [crc] computed over it, the frame made of the payload and
    three more bytes passes the checksum test of the loop if and only if
    these bytes are the big-endian bytes of [crc]. *)
Theorem frame_valid_iff_trailer (payload : list byte) (msgtype crc : Z)
    (a b c : byte) :
  adsb_msg_get_type payload = Ok msgtype ->
  Z.of_nat (length payload) = adsb_len_by_type msgtype / 8 - 3 ->
  adsb_crc (payload ++ [Byte.x00; Byte.x00; Byte.x00])
    (adsb_len_by_type msgtype) = Ok crc ->
  crc_valid (payload ++ [a; b; c]) msgtype <-> [a; b; c] = crc_bytes crc.
Proof.
  intros Ht Hlen Hcrc.
  pose proof (adsb_len_by_type_cases msgtype) as Hbits.
  pose proof (adsb_crc_range _ _ _ Hcrc) as Hrange.
  assert (Ht' : adsb_msg_get_type (payload ++ [a; b; c]) = Ok msgtype).
  { destruct payload as [|p payload]; [done|]. exact Ht. }
  assert (Hc2 : adsb_crc (payload ++ [a; b; c]) (adsb_len_by_type msgtype)
                = Ok crc).
  { rewrite <- Hcrc. by apply adsb_crc_ignores_trailer_aux. }
  pose proof (adsb_msg_get_crc_trailer payload _ a b c Hbits Hlen) as Hc1.
  destruct (crc_bytes_value crc Hrange) as (a' & b' & c' & Hbytes & Hval).
  rewrite Hbytes. split.
  - intros (_ & k & Hk1 & Hk2).
    rewrite Hc1 in Hk1. rewrite Hc2 in Hk2.
    inversion Hk1 as [Ha]. inversion Hk2 as [Hb]. subst k.
    pose proof (byte_val_range a). pose proof (byte_val_range b).
    pose proof (byte_val_range c). pose proof (byte_val_range a').
    pose proof (byte_val_range b'). pose proof (byte_val_range c').
    assert (byte_val a = byte_val a') by lia.
    assert (byte_val b = byte_val b') by lia.
    assert (byte_val c = byte_val c') by lia.
    f_equal; [|f_equal; [|f_equal]]; by apply byte_val_inj.
  - intros Heq. inversion Heq; subst a' b' c'.
    split; [exact Ht'|]. exists crc. split; [|exact Hc2].
    rewrite Hc1. f_equal. exact Hval.
Qed.

Lemma frame_valid_iff_trailer_witness :
  crc_valid (take 11 frame_klm ++ [Byte.x57; Byte.x60; Byte.x98]) 17
  <-> [Byte.x57; Byte.x60; Byte.x98] = crc_bytes 0x576098.
Proof.
  apply (frame_valid_iff_trailer (take 11 frame_klm) 17 0x576098
           Byte.x57 Byte.x60 Byte.x98).
  - vm_compute. reflexivity.
  - vm_compute. reflexivity.
  - vm_compute. reflexivity.
Defined.

(** * Further properties of the ingestion loop *)

Lemma lstrip_all_blank {A : Type} (sp : A -> bool) (ws : list A) :
  Forall (fun w => sp w = true) ws -> lstrip sp ws = [].
Proof.
  induction 1 as [|w ws Hw _ IH]; [done|]. simpl. by rewrite Hw.
Qed.

(** X12: a blank line (empty, or made of ASCII white space only, such as
    a lone newline) decodes to an empty payload, on which reading the type
    raises [IndexError]: the line ends the loop, whatever follows it. *)
Theorem blank_line_ends_loop (airplanes : list (list string))
    (send_data_report : record -> bool) (line : list byte)
    (rest : list (list byte)) (st : thread_state) :
  Forall ascii_blank line ->
  decode_line line = Ok []
  /\ process_line airplanes line = Raise IndexError
  /\ rtl_lines airplanes send_data_report (line :: rest) st
     = (st, Raise IndexError).
Proof.
  intros Hblank.
  assert (Hdec : decode_line line = Ok []).
  { unfold decode_line. rewrite utf8_decode_ascii.
    - cbn [mbind res_bind]. unfold strip.
      rewrite lstrip_all_blank; [done|].
      apply Forall_map. eapply Forall_impl; [exact Hblank|].
      by intros w [_ ?].
    - eapply Forall_impl; [exact Hblank|]. by intros w [? _]. }
  assert (Hp : process_line airplanes line = Raise IndexError).
  { unfold process_line. by rewrite Hdec. }
  split; [exact Hdec|]. split; [exact Hp|]. by apply rtl_lines_raise.
Qed.

Lemma blank_line_ends_loop_witness :
  decode_line [Byte.x0a] = Ok []
  /\ process_line sample_registry [Byte.x0a] = Raise IndexError
  /\ rtl_lines sample_registry (fun _ => true) [[Byte.x0a]; line_klm]
       initial_state
     = (initial_state, Raise IndexError).
Proof.
  apply (blank_line_ends_loop sample_registry (fun _ => true) [Byte.x0a]
           [line_klm] initial_state).
  constructor; [|constructor].
  split; [vm_compute; reflexivity|reflexivity].
Defined.
